(** * A shallow embedding of [a3.py]: the Codeforces problem scraper

    The source is one Python class, [CodeforcesScraper], with three methods:
    [setup_driver], [scrape_problem] and [extract_problem_statement].  The
    development follows the source top-down:

    - Python strings and the [str] methods the scraper calls;
    - the BeautifulSoup tree and its [find_all]/[find]/[text] queries;
    - [extract_problem_statement] and the pure field extraction;
    - the values stored in the [data] dictionary and [json.dump]/[json.load];
    - the effects (browser session, console, files) as a state-and-exception
      monad, and [scrape_problem] written in it;
    - the theorems.

    Python strings are modelled by [string]; a character stands for the code
    point with the same number, so the model covers the code points below 256. *)

From Stdlib Require Import String Ascii List Bool Arith Lia.
From Stdlib Require Import Decimal DecimalString.
From stdpp Require Import base option list strings gmap.

Local Arguments String.append !_ _ / : simpl nomatch.
Local Set Warnings "-register-all".

(** ** Python strings *)

Module PyStr.

(** The newline character, written ["\n"] in the source. *)
Definition nl : string := String "010"%char "".

(** [str.isspace] on one character: the code points below 256 that
    Python classifies as white space. *)
Definition isspace (c : ascii) : bool :=
  let n := nat_of_ascii c in
  ((9 <=? n) && (n <=? 13)) || ((28 <=? n) && (n <=? 32))
  || (n =? 133) || (n =? 160).

Fixpoint lstrip (s : string) : string :=
  match s with
  | "" => ""
  | String c s' => if isspace c then lstrip s' else s
  end.

Fixpoint rstrip (s : string) : string :=
  match s with
  | "" => ""
  | String c s' =>
      match rstrip s' with
      | "" => if isspace c then "" else String c ""
      | r => String c r
      end
  end.

(** [s.strip()] *)
Definition strip (s : string) : string := rstrip (lstrip s).

(** Truthiness of a string: [bool(s)]. *)
Definition truthy (s : string) : bool :=
  match s with "" => false | _ => true end.

(** [sep.join(parts)] *)
Fixpoint join (sep : string) (parts : list string) : string :=
  match parts with
  | [] => ""
  | [p] => p
  | p :: rest => p +:+ sep +:+ join sep rest
  end.

(** [s.replace(old, new)] for one-character [old] and [new]. *)
Fixpoint replace (old new : ascii) (s : string) : string :=
  match s with
  | "" => ""
  | String c s' =>
      String (if Ascii.eqb c old then new else c) (replace old new s')
  end.

(** [str(n)] for a non-negative integer. *)
Definition of_nat (n : nat) : string :=
  NilEmpty.string_of_uint (Nat.to_uint n).

(** [s.startswith(p)] *)
Fixpoint startswith (p s : string) : bool :=
  match p, s with
  | "", _ => true
  | String a p', String b s' => Ascii.eqb a b && startswith p' s'
  | _, _ => false
  end.

(** [s.endswith(c)] for a one-character suffix. *)
Fixpoint endswith (c : ascii) (s : string) : bool :=
  match s with
  | "" => false
  | String a "" => Ascii.eqb a c
  | String _ s' => endswith c s'
  end.

End PyStr.

(** ** The BeautifulSoup tree *)

Module Soup.

(** A page element.  [NavigableString] is a text node; [Comment] stands for
    the string kinds that the [text] property leaves out; [Tag] carries its
    name, the value of its [class] attribute split into tokens, and its
    children. *)
Inductive node : Type :=
| NavigableString (s : string)
| Comment (s : string)
| Tag (name : string) (class_ : list string) (contents : list node).

(** [tag.descendants]: every node below [n], in document order. *)
Fixpoint descendants (n : node) : list node :=
  match n with
  | Tag _ _ cs =>
      (fix below (l : list node) : list node :=
         match l with
         | [] => []
         | c :: l' => c :: descendants c ++ below l'
         end) cs
  | _ => []
  end.

(** The same walk over a list of siblings. *)
Fixpoint descendants_of (l : list node) : list node :=
  match l with
  | [] => []
  | c :: l' => c :: descendants c ++ descendants_of l'
  end.

(** The string a node contributes to [get_text]. *)
Definition string_of (n : node) : option string :=
  match n with
  | NavigableString s => Some s
  | _ => None
  end.

(** [tag.text]: the strings below the tag, concatenated. *)
Definition text (n : node) : string :=
  PyStr.join "" (omap string_of (descendants n)).

(** How [class_=cls] matches a multi-valued [class] attribute: one of the
    tokens is [cls], or the tokens joined by a blank are [cls]. *)
Definition class_matches (cls : string) (tokens : list string) : bool :=
  existsb (String.eqb cls) tokens || String.eqb (PyStr.join " " tokens) cls.

(** The search criterion of [find_all(names, class_=cls)]. *)
Definition matches (names : list string) (cls : option string) (n : node)
  : bool :=
  match n with
  | Tag nm tokens _ =>
      existsb (String.eqb nm) names
      && match cls with
         | None => true
         | Some c => class_matches c tokens
         end
  | _ => false
  end.

Definition find_all (names : list string) (cls : option string) (n : node)
  : list node :=
  List.filter (matches names cls) (descendants n).

(** [find] is the first result of [find_all], or [None]. *)
Definition find (names : list string) (cls : option string) (n : node)
  : option node :=
  head (find_all names cls n).

End Soup.

Import Soup.

(** ** [extract_problem_statement] *)

(** Truthiness of the result of [find]: a [Tag] is always true, [None] is
    false. *)
Definition found (r : option node) : bool :=
  match r with Some _ => true | None => false end.

(** The first loop: one [$$ ... $$] fragment per [span.math]. *)
Definition latex_loop (latex_elements : list node) (problem_text : list string)
  : list string :=
  fold_left
    (fun acc latex =>
       let latex_code := PyStr.strip (text latex) in
       acc ++ ["$$ " +:+ latex_code +:+ " $$"])
    latex_elements problem_text.

(** The second loop: the text of every [p] or [div] without a [span.math]. *)
Definition paragraph_loop (paragraphs : list node) (problem_text : list string)
  : list string :=
  fold_left
    (fun acc paragraph =>
       if negb (found (find ["span"] (Some "math") paragraph))
       then acc ++ [PyStr.strip (text paragraph)]
       else acc)
    paragraphs problem_text.

(** The fragment list just before the final [join]. *)
Definition problem_text (problem_statement_div : node) : list string :=
  let problem_text := [] in
  let latex_elements := find_all ["span"] (Some "math") problem_statement_div in
  let problem_text := latex_loop latex_elements problem_text in
  let paragraphs := find_all ["p"; "div"] None problem_statement_div in
  paragraph_loop paragraphs problem_text.

Definition extract_problem_statement (problem_statement_div : node) : string :=
  PyStr.join PyStr.nl (List.filter PyStr.truthy (problem_text problem_statement_div)).


(** ** The values stored in [data] *)

(** The Python values the scraper builds: strings, lists, and dictionaries
    with string keys.  A dictionary keeps its keys in insertion order, so it is
    an association list. *)
Inductive value : Type :=
| Str (s : string)
| List_ (items : list value)
| Dict (entries : list (string * value)).

Abbreviation dict := (list (string * value)).

(** [d[k] = v] *)
Fixpoint dict_set (k : string) (v : value) (d : dict) : dict :=
  match d with
  | [] => [(k, v)]
  | (k', v') :: d' =>
      if String.eqb k' k then (k, v) :: d' else (k', v') :: dict_set k v d'
  end.

(** [d.get(k)] *)
Fixpoint dict_get (k : string) (d : dict) : option value :=
  match d with
  | [] => None
  | (k', v') :: d' => if String.eqb k' k then Some v' else dict_get k d'
  end.

(** [dict(pairs)]: later pairs overwrite earlier ones. *)
Definition dict_of_pairs (pairs : list (string * value)) : dict :=
  fold_left (fun d kv => dict_set kv.1 kv.2 d) pairs [].

(** ** Field extraction *)

(** The loop over [sample_tests]. *)
Definition sample_loop (sample_tests : list node) (samples : list value)
  : list value :=
  fold_left
    (fun acc test =>
       let input_div := find ["div"] (Some "input") test in
       let output_div := find ["div"] (Some "output") test in
       match input_div, output_div with
       | Some input_div, Some output_div =>
           let input_pre := find ["pre"] None input_div in
           let output_pre := find ["pre"] None output_div in
           match input_pre, output_pre with
           | Some input_pre, Some output_pre =>
               acc ++ [Dict [("input", Str (PyStr.strip (text input_pre)));
                             ("output", Str (PyStr.strip (text output_pre)))]]
           | _, _ => acc
           end
       | _, _ => acc
       end)
    sample_tests samples.

Definition extract_samples (problem_statement : node) : list value :=
  let samples := [] in
  let sample_tests := find_all ["div"] (Some "sample-test") problem_statement in
  sample_loop sample_tests samples.

(** The loop over [tag_divs]. *)
Definition tag_loop (tag_divs : list node) (tags : list value) : list value :=
  fold_left
    (fun acc tag_div =>
       match find ["span"] (Some "tag-box") tag_div with
       | Some span => acc ++ [Str (PyStr.strip (text span))]
       | None => acc
       end)
    tag_divs tags.

Definition extract_tags (soup : node) : list value :=
  let tag_divs :=
    find_all ["div"] (Some "roundbox borderTopRound borderBottomRound") soup in
  let tags := [] in
  match tag_divs with
  | [] => tags
  | _ => tag_loop tag_divs tags
  end.

(** ** File names *)

Definition data_dir : string := "scraped_data".

(** [os.path.join(a, b)] with the POSIX separator. *)
Definition os_path_join (a b : string) : string :=
  if PyStr.startswith "/" b then b
  else if negb (PyStr.truthy a) || PyStr.endswith "/" a then a +:+ b
  else a +:+ "/" +:+ b.

Definition text_file_path (problem_id : string) : string :=
  os_path_join data_dir
    ("problem_" +:+ PyStr.replace "/" "_" problem_id +:+ ".txt").

Definition output_file (problem_id : string) : string :=
  os_path_join data_dir
    ("problem_" +:+ PyStr.replace "/" "_" problem_id +:+ ".json").

(** ** [json.dump] and [json.load] *)

Module Json.

Definition quote : ascii := "034"%char.
Definition backslash : ascii := "092"%char.

Definition hex_digit (n : nat) : ascii :=
  match String.get n "0123456789abcdef" with
  | Some c => c
  | None => "0"%char
  end.

(** [ESCAPE_DCT]: the replacement of one character inside a string literal
    when [ensure_ascii] is false. *)
Definition escape (c : ascii) : string :=
  let n := nat_of_ascii c in
  if Ascii.eqb c quote then String backslash (String quote "")
  else if Ascii.eqb c backslash then String backslash (String backslash "")
  else if n =? 10 then String backslash "n"
  else if n =? 13 then String backslash "r"
  else if n =? 9 then String backslash "t"
  else if n =? 8 then String backslash "b"
  else if n =? 12 then String backslash "f"
  else if n <? 32 then
    String backslash
      ("u00" +:+ String (hex_digit (n / 16)) (String (hex_digit (n mod 16)) ""))
  else String c "".

Fixpoint escape_all (s : string) : string :=
  match s with
  | "" => ""
  | String c s' => escape c +:+ escape_all s'
  end.

(** [encode_basestring] *)
Definition encode_basestring (s : string) : string :=
  String quote (escape_all s +:+ String quote "").

(** [_indent * _current_indent_level] with [indent=2]. *)
Fixpoint indent (level : nat) : string :=
  match level with
  | 0 => ""
  | S k => "  " +:+ indent k
  end.

Definition newline_indent (level : nat) : string := PyStr.nl +:+ indent level.

Section Items.
Context {A : Type} (enc : A → string) (level : nat).

(** The items after the first one, each behind its separator. *)
Fixpoint more (l : list A) : string :=
  match l with
  | [] => ""
  | y :: l' => "," +:+ newline_indent level +:+ enc y +:+ more l'
  end.
End Items.

(** [_iterencode] at nesting depth [level], for lists and dicts alike: an
    empty container is the two brackets, otherwise every item sits on a line
    of its own. *)
Definition encode_pair (enc : value → string) (kv : string * value) : string :=
  let '(k, v) := kv in encode_basestring k +:+ ": " +:+ enc v.

Fixpoint iterencode (level : nat) (o : value) : string :=
  match o with
  | Str s => encode_basestring s
  | List_ [] => "[]"
  | List_ (x :: xs) =>
      "[" +:+ newline_indent (S level) +:+ iterencode (S level) x
      +:+ more (iterencode (S level)) (S level) xs
      +:+ newline_indent level +:+ "]"
  | Dict [] => "{}"
  | Dict (kv :: kvs) =>
      "{" +:+ newline_indent (S level)
      +:+ encode_pair (iterencode (S level)) kv
      +:+ more (encode_pair (iterencode (S level))) (S level) kvs
      +:+ newline_indent level +:+ "}"
  end.

(** [json.dumps(o, indent=2, ensure_ascii=False)] *)
Definition dumps (o : value) : string := iterencode 0 o.

(** *** The decoder, on the fragment of JSON that [dumps] produces:
    strings, arrays and objects.  Numbers, [true], [false] and [null] are
    not read, and an escape [\uXXXX] is read only below [0100], since the
    strings of the model end at code point 255; [dumps] writes no such text. *)

Definition is_ws (c : ascii) : bool :=
  let n := nat_of_ascii c in (n =? 32) || (n =? 9) || (n =? 10) || (n =? 13).

Fixpoint skip_ws (s : string) : string :=
  match s with
  | "" => ""
  | String c s' => if is_ws c then skip_ws s' else s
  end.

Definition hex_value (c : ascii) : option nat :=
  let n := nat_of_ascii c in
  if (48 <=? n) && (n <=? 57) then Some (n - 48)
  else if (97 <=? n) && (n <=? 102) then Some (n - 87)
  else if (65 <=? n) && (n <=? 70) then Some (n - 55)
  else None.

Definition hex4 (a b c d : ascii) : option nat :=
  match hex_value a, hex_value b, hex_value c, hex_value d with
  | Some x, Some y, Some z, Some t => Some (((x * 16 + y) * 16 + z) * 16 + t)
  | _, _, _, _ => None
  end.

(** [BACKSLASH]: the one-letter escapes. *)
Definition unescape (e : ascii) : option ascii :=
  if Ascii.eqb e quote then Some quote
  else if Ascii.eqb e backslash then Some backslash
  else if Ascii.eqb e "/" then Some "/"%char
  else if Ascii.eqb e "b" then Some "008"%char
  else if Ascii.eqb e "f" then Some "012"%char
  else if Ascii.eqb e "n" then Some "010"%char
  else if Ascii.eqb e "r" then Some "013"%char
  else if Ascii.eqb e "t" then Some "009"%char
  else None.

Definition push (c : ascii) (r : option (string * string))
  : option (string * string) :=
  match r with
  | Some (s, rest) => Some (String c s, rest)
  | None => None
  end.

(** [scanstring], started after the opening quote: the decoded string and
    the input after the closing quote. *)
Fixpoint scanstring (s : string) : option (string * string) :=
  match s with
  | "" => None
  | String c s1 =>
      if Ascii.eqb c quote then Some ("", s1)
      else if Ascii.eqb c backslash then
        match s1 with
        | "" => None
        | String e s2 =>
            if Ascii.eqb e "u" then
              match s2 with
              | String h1 (String h2 (String h3 (String h4 s3))) =>
                  match hex4 h1 h2 h3 h4 with
                  | Some n =>
                      if n <? 256 then push (ascii_of_nat n) (scanstring s3)
                      else None
                  | None => None
                  end
              | _ => None
              end
            else
              match unescape e with
              | Some c' => push c' (scanstring s2)
              | None => None
              end
        end
      else if nat_of_ascii c <? 32 then None
      else push c (scanstring s1)
  end.

(** The loop shared by [JSONArray] and [JSONObject]: items separated by
    commas up to the closing bracket. *)
Fixpoint scan_items {A : Type} (item : string → option (A * string))
    (close : ascii) (n : nat) (s : string) : option (list A * string) :=
  match n with
  | 0 => None
  | S n' =>
      match item s with
      | None => None
      | Some (x, s1) =>
          match skip_ws s1 with
          | "" => None
          | String c s2 =>
              if Ascii.eqb c close then Some ([x], s2)
              else if Ascii.eqb c "," then
                match scan_items item close n' (skip_ws s2) with
                | Some (xs, s3) => Some (x :: xs, s3)
                | None => None
                end
              else None
          end
      end
  end.

(** One [key: value] member of an object. *)
Definition scan_pair (scan : string → option (value * string)) (s : string)
  : option ((string * value) * string) :=
  match s with
  | "" => None
  | String c s1 =>
      if Ascii.eqb c quote then
        match scanstring s1 with
        | None => None
        | Some (k, s2) =>
            match skip_ws s2 with
            | "" => None
            | String c' s3 =>
                if Ascii.eqb c' ":" then
                  match scan (skip_ws s3) with
                  | Some (v, s4) => Some ((k, v), s4)
                  | None => None
                  end
                else None
            end
        end
      else None
  end.

(** [scan_once]: one value at the head of the input. *)
Fixpoint scan_once (fuel : nat) (s : string) : option (value * string) :=
  match fuel with
  | 0 => None
  | S fuel' =>
      match s with
      | "" => None
      | String c s1 =>
          if Ascii.eqb c quote then
            match scanstring s1 with
            | Some (str, s2) => Some (Str str, s2)
            | None => None
            end
          else if Ascii.eqb c "[" then
            match skip_ws s1 with
            | "" => None
            | String c' s2 =>
                if Ascii.eqb c' "]" then Some (List_ [], s2)
                else
                  match scan_items (scan_once fuel') "]" fuel' (String c' s2) with
                  | Some (xs, s3) => Some (List_ xs, s3)
                  | None => None
                  end
            end
          else if Ascii.eqb c "{" then
            match skip_ws s1 with
            | "" => None
            | String c' s2 =>
                if Ascii.eqb c' "}" then Some (Dict [], s2)
                else
                  match scan_items (scan_pair (scan_once fuel')) "}" fuel'
                          (String c' s2) with
                  | Some (kvs, s3) => Some (Dict (dict_of_pairs kvs), s3)
                  | None => None
                  end
            end
          else None
      end
  end.

(** [json.loads]: white space, one value, white space, end of input. *)
Definition loads (s : string) : option value :=
  match scan_once (S (String.length s)) (skip_ws s) with
  | Some (v, rest) =>
      match skip_ws rest with
      | "" => Some v
      | _ => None
      end
  | None => None
  end.

End Json.


(** ** Effects: exceptions, the console, the files and the browser session

    The scraper talks to three things outside itself: the console, the file
    system and a Chrome session driven through Selenium.  Their state is the
    record [world]; how they answer during one call is the record [env].
    Time is counted in the units of the timeout, and [time.sleep] always
    returns.  In this first reading of the code the console accepts every
    line, so [print] returns; [scrape_problem_with] further down is the same
    code over a [print] that may raise. *)

(** The exceptions that can reach [scrape_problem].  All of them derive from
    Python's [Exception] except [KeyboardInterrupt], which derives from
    [BaseException] only. *)
Inductive exn : Type :=
| WebDriverException (msg : string)
| TimeoutException (msg : string)
| OSError (msg : string)
| Exception (msg : string)
| KeyboardInterrupt.

(** [isinstance(e, Exception)] *)
Definition is_Exception (e : exn) : bool :=
  match e with
  | KeyboardInterrupt => false
  | _ => true
  end.

(** [str(e)] *)
Definition str_exn (e : exn) : string :=
  match e with
  | WebDriverException m | TimeoutException m | OSError m | Exception m => m
  | KeyboardInterrupt => ""
  end.

Inductive result (A : Type) : Type :=
| Return (a : A)
| Raise (e : exn).
Arguments Return {A} a.
Arguments Raise {A} e.

(** What is observable of a run: the lines printed, the files on disk, the
    number of browser sessions that are open, how often [current_url] was
    read, and the time spent waiting. *)
Record world : Type := World {
  stdout : list string;
  files : gmap string string;
  sessions : nat;
  url_reads : nat;
  clock : nat
}.

(** How the page behaves while [WebDriverWait.until] polls for the marker. *)
Inductive wait_behaviour : Type :=
| MarkerAfter (delay : nat)
| MarkerNever
| WaitRaises (e : exn).

(** What [open(path, 'w')] followed by a write does for a given path: both
    succeed, or [open] raises, or the write raises after [written] characters
    have reached the file. *)
Inductive file_fault : Type :=
| NoFault
| OpenFails (e : exn)
| WriteFails (e : exn) (written : nat).

(** The surroundings of one call: the behaviour of the browser and of the
    file system.  [page_source] is the snapshot already parsed by
    [BeautifulSoup(driver.page_source, 'html.parser')]. *)
Record env : Type := Env {
  chrome_start : option exn;
  navigate : string → option exn;
  current_url : nat → result string;
  marker : wait_behaviour;
  page_source : result node;
  fs_fault : string → file_fault
}.

(** A computation: a state transformer that returns or raises. *)
Definition M (A : Type) : Type := world → result A * world.

Definition ret {A : Type} (a : A) : M A := fun w => (Return a, w).

Definition raise {A : Type} (e : exn) : M A := fun w => (Raise e, w).

Definition bind {A B : Type} (m : M A) (k : A → M B) : M B :=
  fun w =>
    match m w with
    | (Return a, w') => k a w'
    | (Raise e, w') => (Raise e, w')
    end.

Notation "'let*' x ':=' m 'in' k" := (bind m (fun x => k))
  (at level 10, x name, m at level 200, k at level 200, only parsing).
Notation "m >> k" := (bind m (fun _ => k))
  (at level 100, k at level 200, right associativity, only parsing).

(** [try: m  except Exception as e: h(e)] *)
Definition try_except {A : Type} (m : M A) (h : exn → M A) : M A :=
  fun w =>
    match m w with
    | (Return a, w') => (Return a, w')
    | (Raise e, w') => if is_Exception e then h e w' else (Raise e, w')
    end.

(** [try: m  except: pass] *)
Definition try_pass (m : M unit) : M unit :=
  fun w =>
    match m w with
    | (Return _, w') => (Return tt, w')
    | (Raise _, w') => (Return tt, w')
    end.

(** [try: m  finally: f] *)
Definition try_finally {A : Type} (m : M A) (f : M unit) : M A :=
  fun w =>
    match m w with
    | (r, w') =>
        match f w' with
        | (Return _, w'') => (r, w'')
        | (Raise e, w'') => (Raise e, w'')
        end
    end.

Definition print (line : string) : M unit :=
  fun w => (Return tt,
            World (stdout w ++ [line]) (files w) (sessions w) (url_reads w) (clock w)).

(** [time.sleep(n)], and the time a wait takes. *)
Definition sleep (n : nat) : M unit :=
  fun w => (Return tt,
            World (stdout w) (files w) (sessions w) (url_reads w) (clock w + n)).

(** [with open(path, 'w', encoding='utf-8') as f: f.write(content)] *)
Definition write_file (E : env) (path content : string) : M unit :=
  fun w =>
    match fs_fault E path with
    | OpenFails e => (Raise e, w)
    | WriteFails e written =>
        (Raise e,
         World (stdout w) (<[path := String.substring 0 written content]> (files w))
           (sessions w) (url_reads w) (clock w))
    | NoFault =>
        (Return tt,
         World (stdout w) (<[path := content]> (files w)) (sessions w) (url_reads w) (clock w))
    end.

(** [CodeforcesScraper.setup_driver]: starting Chrome opens a session, or
    raises. *)
Definition setup_driver (E : env) : M unit :=
  fun w =>
    match chrome_start E with
    | Some e => (Raise e, w)
    | None =>
        (Return tt,
         World (stdout w) (files w) (S (sessions w)) (url_reads w) (clock w))
    end.

(** [driver.get(url)] *)
Definition driver_get (E : env) (url : string) : M unit :=
  match navigate E url with
  | Some e => raise e
  | None => ret tt
  end.

(** [driver.current_url] *)
Definition driver_current_url (E : env) : M string :=
  fun w =>
    (current_url E (url_reads w),
     World (stdout w) (files w) (sessions w) (S (url_reads w)) (clock w)).

(** [str(e)] of the [TimeoutException] that [until] raises: its message is
    empty. *)
Definition timeout_message : string := "Message: " +:+ PyStr.nl.

(** [WebDriverWait(driver, timeout).until(presence_of_element_located(...))] *)
Definition wait_until (E : env) (timeout : nat) : M unit :=
  match marker E with
  | MarkerAfter delay =>
      if delay <=? timeout then sleep delay
      else sleep timeout >> raise (TimeoutException timeout_message)
  | MarkerNever => sleep timeout >> raise (TimeoutException timeout_message)
  | WaitRaises e => raise e
  end.

(** [BeautifulSoup(driver.page_source, 'html.parser')] *)
Definition driver_page_source (E : env) : M node :=
  match page_source E with
  | Return soup => ret soup
  | Raise e => raise e
  end.

(** [driver.quit()]: the Chrome driver swallows the errors of shutting down. *)
Definition driver_quit : M unit :=
  fun w => (Return tt,
            World (stdout w) (files w) (pred (sessions w)) (url_reads w) (clock w)).

(** ** [scrape_problem] *)

Definition base_url : string := "https://codeforces.com".

(** [data[k]] printed inside an f-string; the scraper stores text only. *)
Definition show (v : option value) : string :=
  match v with
  | Some (Str s) => s
  | _ => ""
  end.

(** Lines 59 to 125: from the statement region to the returned [data]. *)
Definition build_record (E : env) (problem_id : string)
    (soup problem_statement : node) : M dict :=
  let data : dict := [] in
  let title_div := find ["div"] (Some "title") problem_statement in
  let* data :=
    match title_div with
    | Some title_div =>
        let data := dict_set "title" (Str (PyStr.strip (text title_div))) data in
        print ("Found title: " +:+ show (dict_get "title" data)) >> ret data
    | None => ret data
    end in
  let limits := find_all ["div"] (Some "time-limit") problem_statement in
  let* data :=
    match limits with
    | limits_0 :: _ =>
        let data := dict_set "time_limit" (Str (PyStr.strip (text limits_0))) data in
        print ("Found time limit: " +:+ show (dict_get "time_limit" data)) >> ret data
    | [] => ret data
    end in
  let memory_limit := find ["div"] (Some "memory-limit") problem_statement in
  let* data :=
    match memory_limit with
    | Some memory_limit =>
        let data :=
          dict_set "memory_limit" (Str (PyStr.strip (text memory_limit))) data in
        print ("Found memory limit: " +:+ show (dict_get "memory_limit" data))
        >> ret data
    | None => ret data
    end in
  let statement_text := extract_problem_statement problem_statement in
  let data := dict_set "statement" (Str statement_text) data in
  write_file E (text_file_path problem_id) statement_text >>
  print ("Problem statement saved as text file: " +:+ text_file_path problem_id) >>
  let samples := extract_samples problem_statement in
  let data := dict_set "samples" (List_ samples) data in
  print ("Found " +:+ PyStr.of_nat (length samples) +:+ " sample tests") >>
  let tags := extract_tags soup in
  let data := dict_set "tags" (List_ tags) data in
  write_file E (output_file problem_id) (Json.dumps (Dict data)) >>
  print ("Data saved to " +:+ output_file problem_id) >>
  ret data.

(** The body of the [try] block, lines 40 to 125. *)
Definition try_body (E : env) (url problem_id : string) : M dict :=
  driver_get E url >>
  let* current := driver_current_url E in
  print ("Current URL: " +:+ current) >>
  wait_until E 20 >>
  print "Problem statement found, extracting content..." >>
  let* soup := driver_page_source E in
  match find ["div"] (Some "problem-statement") soup with
  | None => raise (Exception "Could not find problem statement")
  | Some problem_statement => build_record E problem_id soup problem_statement
  end.

(** The [except Exception as e] handler, lines 127 to 133. *)
Definition handler (E : env) (problem_id : string) (e : exn) : M (option dict) :=
  print ("Error scraping problem " +:+ problem_id +:+ ": " +:+ str_exn e) >>
  try_pass (let* current := driver_current_url E in
            print ("Failed URL: " +:+ current)) >>
  ret None.

Definition scrape_problem (E : env) (problem_id : string) : M (option dict) :=
  let url := base_url +:+ "/problemset/problem/" +:+ problem_id in
  print ("Accessing URL: " +:+ url) >>
  setup_driver E >>
  try_finally
    (try_except
       (let* data := try_body E url problem_id in ret (Some data))
       (handler E problem_id))
    (sleep 3 >> driver_quit).

(** ** Vocabulary of the statements *)

(** The fragment written for one [span.math]. *)
Definition delimited (latex : node) : string :=
  "$$ " +:+ PyStr.strip (text latex) +:+ " $$".

(** The fragment written for one paragraph or container. *)
Definition trimmed (paragraph : node) : string := PyStr.strip (text paragraph).

(** The test [not paragraph.find('span', class_='math')]. *)
Definition math_free (paragraph : node) : bool :=
  negb (found (find ["span"] (Some "math") paragraph)).

(** [n] generic containers around [inner], one inside the other. *)
Fixpoint nest (n : nat) (inner : node) : node :=
  match n with
  | 0 => inner
  | S k => Tag "div" [] [nest k inner]
  end.

(** A paragraph holding one text node. *)
Definition paragraph_of (s : string) : node := Tag "p" [] [NavigableString s].

(** A math span holding one text node. *)
Definition math_of (s : string) : node := Tag "span" ["math"] [NavigableString s].

(** A statement region with the given children. *)
Definition region_of (children : list node) : node :=
  Tag "div" ["problem-statement"] children.

(** The pair one sample-test element yields, if any. *)
Definition sample_of (test : node) : option value :=
  input_div ← find ["div"] (Some "input") test;
  output_div ← find ["div"] (Some "output") test;
  input_pre ← find ["pre"] None input_div;
  output_pre ← find ["pre"] None output_div;
  Some (Dict [("input", Str (PyStr.strip (text input_pre)));
              ("output", Str (PyStr.strip (text output_pre)))]).

(** The tag one tag container yields, if any. *)
Definition tag_of (tag_div : node) : option value :=
  span ← find ["span"] (Some "tag-box") tag_div;
  Some (Str (PyStr.strip (text span))).

(** The compound class marker of a tag container. *)
Definition tag_marker : string := "roundbox borderTopRound borderBottomRound".

(** What the spec calls sanitization: a slash becomes an underscore, any
    other character stays. *)
Definition sanitize_char (c : ascii) : ascii :=
  if Ascii.eqb c "/" then "_"%char else c.

(** The address [scrape_problem] navigates to. *)
Definition target_url (problem_id : string) : string :=
  base_url +:+ "/problemset/problem/" +:+ problem_id.

(** The world once the address is announced and the session is open. *)
Definition started (problem_id : string) (w : world) : world :=
  World (stdout w ++ ["Accessing URL: " +:+ target_url problem_id])
    (files w) (S (sessions w)) (url_reads w) (clock w).

(** The world after the [finally] clause. *)
Definition closed (w : world) : world :=
  World (stdout w) (files w) (pred (sessions w)) (url_reads w) (clock w + 3).

(** The marker does not show up within [timeout]. *)
Definition timed_out (timeout : nat) (b : wait_behaviour) : bool :=
  match b with
  | MarkerAfter delay => negb (delay <=? timeout)
  | MarkerNever => true
  | WaitRaises _ => false
  end.

(** The lines the handler prints for [e]: the error, then the address when
    [current_url] can be read. *)
Definition report (E : env) (problem_id : string) (e : exn) (w : world)
  : list string :=
  ("Error scraping problem " +:+ problem_id +:+ ": " +:+ str_exn e)
  :: match current_url E (url_reads w) with
     | Return current => ["Failed URL: " +:+ current]
     | Raise _ => []
     end.

(** The dictionary built from a snapshot and its statement region. *)
Definition record_of (soup region : node) : dict :=
  let data : dict := [] in
  let data :=
    match find ["div"] (Some "title") region with
    | Some title_div => dict_set "title" (Str (trimmed title_div)) data
    | None => data
    end in
  let data :=
    match find_all ["div"] (Some "time-limit") region with
    | limits_0 :: _ => dict_set "time_limit" (Str (trimmed limits_0)) data
    | [] => data
    end in
  let data :=
    match find ["div"] (Some "memory-limit") region with
    | Some memory_limit => dict_set "memory_limit" (Str (trimmed memory_limit)) data
    | None => data
    end in
  let data := dict_set "statement" (Str (extract_problem_statement region)) data in
  let data := dict_set "samples" (List_ (extract_samples region)) data in
  dict_set "tags" (List_ (extract_tags soup)) data.

(** A computation leaves a component of the world as it found it. *)
Definition keeps {A B : Type} (component : world → B) (m : M A) : Prop :=
  ∀ w, component (m w).2 = component w.

Create HintDb keeps.


(** *** Sample surroundings *)

(** An empty disk, no session, nothing printed. *)
Definition fresh : world := World [] ∅ 0 0 0.

(** A page in the layout of the site: one tag container beside the statement
    region. *)
Definition sample_page : node :=
  Tag "[document]" []
    [Tag "div" ["roundbox"; "borderTopRound"; "borderBottomRound"]
       [Tag "span" ["tag-box"] [NavigableString " math "]];
     region_of
       [Tag "div" ["header"]
          [Tag "div" ["title"] [NavigableString "A. Theatre Square"];
           Tag "div" ["time-limit"] [NavigableString "1 second"]];
        paragraph_of "Pave the square.";
        Tag "div" ["sample-test"]
          [Tag "div" ["input"] [Tag "pre" [] [NavigableString "6 6 4"]];
           Tag "div" ["output"] [Tag "pre" [] [NavigableString "4"]]]]].

(** The same page without its statement region. *)
Definition page_without_region : node :=
  Tag "[document]" []
    [Tag "div" ["roundbox"; "borderTopRound"; "borderBottomRound"]
       [Tag "span" ["tag-box"] [NavigableString " math "]]].

(** A browser and a disk without faults, showing [page] after two units. *)
Definition serving (page : node) : env :=
  Env None (fun _ => None) (fun _ => Return "https://codeforces.com/problemset/problem/1/A")
    (MarkerAfter 2) (Return page) (fun _ => NoFault).

(** The marker never shows up. *)
Definition never_ready : env :=
  Env None (fun _ => None) (fun _ => Return "https://codeforces.com/problemset/problem/1/A")
    MarkerNever (Return sample_page) (fun _ => NoFault).




(** *** Values that survive a trip through JSON *)

(** The keys of a dictionary are pairwise different. *)
Fixpoint keys_distinct (d : dict) : bool :=
  match d with
  | [] => true
  | (k, _) :: d' => negb (existsb (String.eqb k) (map fst d')) && keys_distinct d'
  end.

(** Every dictionary inside the value has pairwise different keys, as every
    Python dictionary has. *)
Fixpoint well_keyed (v : value) : bool :=
  match v with
  | Str _ => true
  | List_ items => forallb well_keyed items
  | Dict entries =>
      keys_distinct entries && forallb (fun kv => well_keyed kv.2) entries
  end.

(** A bound on the nesting and on the number of items of a value. *)
Fixpoint size (v : value) : nat :=
  match v with
  | Str _ => 1
  | List_ items => S (list_sum (map (fun x => S (size x)) items))
  | Dict entries => S (list_sum (map (fun kv => S (size kv.2)) entries))
  end.

(** The first character of an encoded value. *)
Definition opens_value (c : ascii) : bool :=
  Ascii.eqb c Json.quote || Ascii.eqb c "[" || Ascii.eqb c "{".

(** ** The driver at the end of the file (lines 165 to 179) *)

Definition problem_array : list string :=
  ["1/A"; "1/B"; "1/C"; "2/A"; "2/B"; "2/C"].

(** [bool(result)]: [None] and the empty dictionary are false. *)
Definition result_truthy (result : option dict) : bool :=
  match result with
  | Some (_ :: _) => true
  | _ => false
  end.

(** [result.get(k, default)] printed inside an f-string; under the keys read
    here the scraper stores text only. *)
Definition get_or (k default : string) (result : dict) : string :=
  match dict_get k result with
  | Some v => show (Some v)
  | None => default
  end.

(** [len(v)] *)
Definition len (v : value) : nat :=
  match v with
  | Str s => String.length s
  | List_ items => length items
  | Dict entries => length entries
  end.

(** [len(result.get('samples', []))] *)
Definition samples_count (result : dict) : nat :=
  match dict_get "samples" result with
  | Some v => len v
  | None => 0
  end.

(** Lines 172 to 179: the summary of one result. *)
Definition summarize (result : option dict) : M unit :=
  if result_truthy result then
    let result := default [] result in
    print (PyStr.nl +:+ "Successfully scraped problem data:") >>
    print ("Title: " +:+ get_or "title" "Not found" result) >>
    print ("Time Limit: " +:+ get_or "time_limit" "Not found" result) >>
    print ("Memory Limit: " +:+ get_or "memory_limit" "Not found" result) >>
    print ("Number of sample tests: " +:+ PyStr.of_nat (samples_count result))
  else
    print (PyStr.nl +:+ "Failed to scrape problem data").

(** The loop of lines 168 to 179.  [E k] is how the browser and the disk
    behave during the call number [k].  Creating the scraper on line 163 has
    no counterpart here: it makes the output directory, and the disk of the
    model has files only. *)
Fixpoint main_loop (E : nat → env) (k : nat) (problems : list string) : M unit :=
  match problems with
  | [] => ret tt
  | problem :: rest =>
      print (PyStr.nl +:+ "Testing scraper with problem " +:+ problem +:+ "...") >>
      let* result := scrape_problem (E k) problem in
      summarize result >>
      main_loop E (S k) rest
  end.

Definition main (E : nat → env) : M unit := main_loop E 0 problem_array.

(** ** Further vocabulary *)

(** Every exception the surroundings raise derives from [Exception]. *)
Definition raises_only_Exceptions (E : env) : Prop :=
  (∀ url e, navigate E url = Some e → is_Exception e = true)
  ∧ (∀ n e, current_url E n = Raise e → is_Exception e = true)
  ∧ (∀ e, marker E = WaitRaises e → is_Exception e = true)
  ∧ (∀ e, page_source E = Raise e → is_Exception e = true)
  ∧ (∀ path e, fs_fault E path = OpenFails e → is_Exception e = true)
  ∧ (∀ path e n, fs_fault E path = WriteFails e n → is_Exception e = true).

(** Where an exception raised inside the [try] block can come from. *)
Definition raised_inside (E : env) (problem_id : string) (w : world) (e : exn)
  : Prop :=
  navigate E (target_url problem_id) = Some e
  ∨ current_url E (url_reads w) = Raise e
  ∨ (timed_out 20 (marker E) = true ∧ e = TimeoutException timeout_message)
  ∨ marker E = WaitRaises e
  ∨ page_source E = Raise e
  ∨ (∃ soup, page_source E = Return soup
             ∧ find ["div"] (Some "problem-statement") soup = None
             ∧ e = Exception "Could not find problem statement")
  ∨ fs_fault E (text_file_path problem_id) = OpenFails e
  ∨ (∃ n, fs_fault E (text_file_path problem_id) = WriteFails e n)
  ∨ fs_fault E (output_file problem_id) = OpenFails e
  ∨ (∃ n, fs_fault E (output_file problem_id) = WriteFails e n).

(** The page for [problem_id] can be scraped without a fault, whenever the
    call is made. *)
Definition extractable (E : env) (problem_id : string) : Prop :=
  chrome_start E = None
  ∧ navigate E (target_url problem_id) = None
  ∧ (∀ n, ∃ current, current_url E n = Return current)
  ∧ (∃ delay, marker E = MarkerAfter delay ∧ delay ≤ 20)
  ∧ (∃ soup region,
       page_source E = Return soup
       ∧ find ["div"] (Some "problem-statement") soup = Some region)
  ∧ fs_fault E (text_file_path problem_id) = NoFault
  ∧ fs_fault E (output_file problem_id) = NoFault.

(** The identifier at position [j] of a list. *)
Definition nth_problem (problems : list string) (j : nat) : option string :=
  problems !! j.

(** The world once the driver has announced [problem]. *)
Definition announced (problem : string) (w : world) : world :=
  World (stdout w
         ++ [PyStr.nl +:+ "Testing scraper with problem " +:+ problem +:+ "..."])
    (files w) (sessions w) (url_reads w) (clock w).

(** The lines of the summary of one result. *)
Definition summary_of (soup region : node) : list string :=
  [PyStr.nl +:+ "Successfully scraped problem data:";
   "Title: "
     +:+ from_option trimmed "Not found" (find ["div"] (Some "title") region);
   "Time Limit: "
     +:+ from_option trimmed "Not found"
           (head (find_all ["div"] (Some "time-limit") region));
   "Memory Limit: "
     +:+ from_option trimmed "Not found"
           (find ["div"] (Some "memory-limit") region);
   "Number of sample tests: "
     +:+ PyStr.of_nat (length (extract_samples region))].

(** ** The same code over a console that may refuse a line *)

(** What [print] does with a line: [None] when the line is written, [Some e]
    when [print] raises [e], as it does with a [UnicodeEncodeError] on a
    console that cannot encode a character of the page. *)
Definition console : Type := string → option exn.

Definition print_on (C : console) (line : string) : M unit :=
  match C line with
  | Some e => raise e
  | None => print line
  end.

(** The console that accepts every line. *)
Definition quiet : console := fun _ => None.

Section WithPrint.
Variable print : string → M unit.

(** Lines 59 to 125. *)
Definition build_record_with (E : env) (problem_id : string)
    (soup problem_statement : node) : M dict :=
  let data : dict := [] in
  let title_div := find ["div"] (Some "title") problem_statement in
  let* data :=
    match title_div with
    | Some title_div =>
        let data := dict_set "title" (Str (PyStr.strip (text title_div))) data in
        print ("Found title: " +:+ show (dict_get "title" data)) >> ret data
    | None => ret data
    end in
  let limits := find_all ["div"] (Some "time-limit") problem_statement in
  let* data :=
    match limits with
    | limits_0 :: _ =>
        let data := dict_set "time_limit" (Str (PyStr.strip (text limits_0))) data in
        print ("Found time limit: " +:+ show (dict_get "time_limit" data)) >> ret data
    | [] => ret data
    end in
  let memory_limit := find ["div"] (Some "memory-limit") problem_statement in
  let* data :=
    match memory_limit with
    | Some memory_limit =>
        let data :=
          dict_set "memory_limit" (Str (PyStr.strip (text memory_limit))) data in
        print ("Found memory limit: " +:+ show (dict_get "memory_limit" data))
        >> ret data
    | None => ret data
    end in
  let statement_text := extract_problem_statement problem_statement in
  let data := dict_set "statement" (Str statement_text) data in
  write_file E (text_file_path problem_id) statement_text >>
  print ("Problem statement saved as text file: " +:+ text_file_path problem_id) >>
  let samples := extract_samples problem_statement in
  let data := dict_set "samples" (List_ samples) data in
  print ("Found " +:+ PyStr.of_nat (length samples) +:+ " sample tests") >>
  let tags := extract_tags soup in
  let data := dict_set "tags" (List_ tags) data in
  write_file E (output_file problem_id) (Json.dumps (Dict data)) >>
  print ("Data saved to " +:+ output_file problem_id) >>
  ret data.

(** Lines 40 to 125. *)
Definition try_body_with (E : env) (url problem_id : string) : M dict :=
  driver_get E url >>
  let* current := driver_current_url E in
  print ("Current URL: " +:+ current) >>
  wait_until E 20 >>
  print "Problem statement found, extracting content..." >>
  let* soup := driver_page_source E in
  match find ["div"] (Some "problem-statement") soup with
  | None => raise (Exception "Could not find problem statement")
  | Some problem_statement =>
      build_record_with E problem_id soup problem_statement
  end.

(** Lines 127 to 133. *)
Definition handler_with (E : env) (problem_id : string) (e : exn)
  : M (option dict) :=
  print ("Error scraping problem " +:+ problem_id +:+ ": " +:+ str_exn e) >>
  try_pass (let* current := driver_current_url E in
            print ("Failed URL: " +:+ current)) >>
  ret None.

Definition scrape_problem_with (E : env) (problem_id : string)
  : M (option dict) :=
  let url := base_url +:+ "/problemset/problem/" +:+ problem_id in
  print ("Accessing URL: " +:+ url) >>
  setup_driver E >>
  try_finally
    (try_except
       (let* data := try_body_with E url problem_id in ret (Some data))
       (handler_with E problem_id))
    (sleep 3 >> driver_quit).

End WithPrint.

(** [scrape_problem] on the console [C]. *)
Definition scrape_problem_on (C : console) : env → string → M (option dict) :=
  scrape_problem_with (print_on C).

(** The first refusal among the lines, in the order they are printed. *)
Fixpoint refusal (C : console) (lines : list string) : option exn :=
  match lines with
  | [] => None
  | line :: rest =>
      match C line with
      | Some e => Some e
      | None => refusal C rest
      end
  end.

(** The lines of a run, by the place that prints them. *)
Definition accessing_line (problem_id : string) : string :=
  "Accessing URL: " +:+ target_url problem_id.

Definition found_lines (region : node) : list string :=
  match find ["div"] (Some "title") region with
  | Some title_div => ["Found title: " +:+ trimmed title_div]
  | None => []
  end
  ++ match find_all ["div"] (Some "time-limit") region with
     | limits_0 :: _ => ["Found time limit: " +:+ trimmed limits_0]
     | [] => []
     end
  ++ match find ["div"] (Some "memory-limit") region with
     | Some memory_limit => ["Found memory limit: " +:+ trimmed memory_limit]
     | None => []
     end.

(** Lines 36, 42, 50, 66, 72 and 77: what is printed before the text artifact
    is written. *)
Definition lines_before_text (problem_id current : string) (region : node)
  : list string :=
  [accessing_line problem_id;
   "Current URL: " +:+ current;
   "Problem statement found, extracting content..."]
  ++ found_lines region.

(** Line 87. *)
Definition saved_line (problem_id : string) : string :=
  "Problem statement saved as text file: " +:+ text_file_path problem_id.

(** Line 107. *)
Definition samples_line (region : node) : string :=
  "Found " +:+ PyStr.of_nat (length (extract_samples region)) +:+ " sample tests".

(** Line 124. *)
Definition data_saved_line (problem_id : string) : string :=
  "Data saved to " +:+ output_file problem_id.

(** Line 128. *)
Definition error_line (problem_id : string) (e : exn) : string :=
  "Error scraping problem " +:+ problem_id +:+ ": " +:+ str_exn e.


(** [e] is raised after the text artifact is written and before the JSON
    artifact is: by the print of line 87, by the print of line 107, or by
    opening the JSON file on line 121. *)
Definition raised_between (C : console) (E : env) (problem_id : string)
    (region : node) (e : exn) : Prop :=
  C (saved_line problem_id) = Some e
  ∨ (C (saved_line problem_id) = None ∧ C (samples_line region) = Some e)
  ∨ (C (saved_line problem_id) = None ∧ C (samples_line region) = None
     ∧ fs_fault E (output_file problem_id) = OpenFails e).


(** Opening the JSON artifact is interrupted from the keyboard. *)
Definition json_interrupted : env :=
  Env None (fun _ => None) (fun _ => Return "https://codeforces.com/problemset/problem/1/A")
    (MarkerAfter 2) (Return sample_page)
    (fun path => if String.eqb path "scraped_data/problem_1_A.json"
                 then OpenFails KeyboardInterrupt
                 else NoFault).

(** A console that fails once, on the line about the samples. *)
Definition no_samples_line : console :=
  fun line => if PyStr.startswith "Found 1 sample" line
              then Some (OSError "[Errno 5] Input/output error")
              else None.

(** A console that accepts every line it is given. *)
Definition accepting (C : console) : Prop := ∀ line, C line = None.

(** Lines 172 to 179 on the console [C]. *)
Definition summarize_on (C : console) (result : option dict) : M unit :=
  if result_truthy result then
    let result := default [] result in
    print_on C (PyStr.nl +:+ "Successfully scraped problem data:") >>
    print_on C ("Title: " +:+ get_or "title" "Not found" result) >>
    print_on C ("Time Limit: " +:+ get_or "time_limit" "Not found" result) >>
    print_on C ("Memory Limit: " +:+ get_or "memory_limit" "Not found" result) >>
    print_on C ("Number of sample tests: " +:+ PyStr.of_nat (samples_count result))
  else
    print_on C (PyStr.nl +:+ "Failed to scrape problem data").

(** The loop of lines 168 to 179 on the console [C]. *)
Fixpoint main_loop_on (C : console) (E : nat → env) (k : nat)
    (problems : list string) : M unit :=
  match problems with
  | [] => ret tt
  | problem :: rest =>
      print_on C (PyStr.nl +:+ "Testing scraper with problem " +:+ problem +:+ "...") >>
      let* result := scrape_problem_on C (E k) problem in
      summarize_on C result >>
      main_loop_on C E (S k) rest
  end.

Definition main_on (C : console) (E : nat → env) : M unit :=
  main_loop_on C E 0 problem_array.

(** * Properties *)

(** ** Strings *)

Section PyStrFacts.
Import PyStr.

Lemma rstrip_nonspace_head c s :
  isspace c = false → ∃ r, rstrip (String c s) = String c r.
Proof.
  intros Hc. simpl. destruct (rstrip s) as [|a r].
  - rewrite Hc. by exists "".
  - by exists (String a r).
Qed.

Lemma lstrip_cases s :
  lstrip s = "" ∨ ∃ c r, lstrip s = String c r ∧ isspace c = false.
Proof.
  induction s as [|c s IH]; simpl; [by left|].
  destruct (isspace c) eqn:Hc; [exact IH|].
  right. by exists c, s.
Qed.

(** A trimmed string is empty or starts with a character that is not
    white space. *)
Lemma strip_cases s :
  strip s = "" ∨ ∃ c r, strip s = String c r ∧ isspace c = false.
Proof.
  unfold strip. destruct (lstrip_cases s) as [->|(c & r & -> & Hc)].
  - by left.
  - right. destruct (rstrip_nonspace_head c r Hc) as [r' ->]. by exists c, r'.
Qed.



Lemma append_empty_r s : s +:+ "" = s.
Proof. induction s; simpl; congruence. Qed.

Lemma append_assoc (a b c : string) : (a +:+ b) +:+ c = a +:+ (b +:+ c).
Proof. induction a; simpl; congruence. Qed.

Lemma length_append (a b : string) :
  String.length (a +:+ b) = String.length a + String.length b.
Proof. induction a; simpl; congruence. Qed.

End PyStrFacts.

(** ** Lists *)

Lemma filter_cons_true {A : Type} (f : A → bool) x l :
  f x = true → List.filter f (x :: l) = x :: List.filter f l.
Proof. intros H. simpl. by rewrite H. Qed.

Lemma filter_cons_false {A : Type} (f : A → bool) x l :
  f x = false → List.filter f (x :: l) = List.filter f l.
Proof. intros H. simpl. by rewrite H. Qed.

(** ** The tree *)

Lemma descendants_Tag nm cl cs : descendants (Tag nm cl cs) = descendants_of cs.
Proof. simpl. induction cs as [|c cs IH]; simpl; congruence. Qed.

Lemma descendants_of_app l1 l2 :
  descendants_of (l1 ++ l2) = descendants_of l1 ++ descendants_of l2.
Proof.
  induction l1 as [|c l1 IH]; simpl; [done|].
  by rewrite IH, <- app_assoc.
Qed.

(** A search below a tag is the search among its children and below each of
    them, child by child. *)
Lemma find_all_Tag names cls nm cl cs :
  find_all names cls (Tag nm cl cs)
  = List.filter (matches names cls) (descendants_of cs).
Proof. unfold find_all. by rewrite descendants_Tag. Qed.

Lemma find_None_iff names cls n :
  find names cls n = None
  ↔ ∀ d, In d (descendants n) → matches names cls d = false.
Proof.
  unfold find, find_all. split.
  - intros H d Hd. destruct (matches names cls d) eqn:Hm; [|done].
    assert (In d (List.filter (matches names cls) (descendants n))) as Hin
      by (apply List.filter_In; auto).
    destruct (List.filter (matches names cls) (descendants n)); [destruct Hin|done].
  - intros H. induction (descendants n) as [|d l IH]; simpl; [done|].
    rewrite (H d) by (by left). apply IH. intros d' Hd'. apply H. by right.
Qed.

(** ** The two loops of [extract_problem_statement] *)

Lemma latex_loop_spec l acc : latex_loop l acc = acc ++ map delimited l.
Proof.
  unfold latex_loop. revert acc.
  induction l as [|x l IH]; intros acc; simpl.
  - by rewrite app_nil_r.
  - rewrite IH, <- app_assoc. done.
Qed.

Lemma paragraph_loop_spec l acc :
  paragraph_loop l acc = acc ++ map trimmed (List.filter math_free l).
Proof.
  unfold paragraph_loop. revert acc.
  induction l as [|x l IH]; intros acc; simpl.
  - by rewrite app_nil_r.
  - rewrite IH. unfold math_free at 2.
    destruct (negb (found (find ["span"] (Some "math") x))); simpl; [|done].
    by rewrite <- app_assoc.
Qed.

Lemma problem_text_spec region :
  problem_text region
  = map delimited (find_all ["span"] (Some "math") region)
    ++ map trimmed (List.filter math_free (find_all ["p"; "div"] None region)).
Proof.
  unfold problem_text. by rewrite paragraph_loop_spec, latex_loop_spec.
Qed.



(** ** Statement extraction *)

(** C6: the prose pass appends the trimmed text of a paragraph or container
    exactly when no [span.math] lies below it, in document order: the pass
    extends the fragment list by the trimmed texts of the math-free elements
    among the region's [p] and [div] descendants, taken in the order of
    [descendants]; and an element is math-free exactly when none of its
    descendants is a [span.math]. *)
Theorem prose_pass_keeps_math_free_in_order :
  (∀ region acc,
     paragraph_loop (find_all ["p"; "div"] None region) acc
     = acc ++ map trimmed
         (List.filter (fun e => matches ["p"; "div"] None e && math_free e)
            (descendants region)))
  ∧ (∀ region,
       problem_text region
       = map delimited (find_all ["span"] (Some "math") region)
         ++ map trimmed
              (List.filter (fun e => matches ["p"; "div"] None e && math_free e)
                 (descendants region)))
  ∧ (∀ e, math_free e = true
          ↔ ∀ d, In d (descendants e) → matches ["span"] (Some "math") d = false)
  ∧ (∀ e acc, paragraph_loop [e] acc
              = if math_free e then acc ++ [trimmed e] else acc).
Proof.
  assert (∀ region,
    List.filter math_free (find_all ["p"; "div"] None region)
    = List.filter (fun e => matches ["p"; "div"] None e && math_free e)
        (descendants region)) as Hfilter.
  { intros region. unfold find_all.
    induction (descendants region) as [|d l IH]; simpl; [done|].
    destruct (matches ["p"; "div"] None d); simpl; [|done].
    destruct (math_free d); by rewrite IH. }
  split; [|split; [|split]].
  - intros region acc. by rewrite paragraph_loop_spec, Hfilter.
  - intros region. by rewrite problem_text_spec, Hfilter.
  - intros e. unfold math_free. rewrite <- find_None_iff.
    destruct (find ["span"] (Some "math") e); simpl; split; done.
  - intros e acc. rewrite paragraph_loop_spec. simpl.
    destruct (math_free e); simpl; [done|by rewrite app_nil_r].
Qed.

(** An instance: one paragraph after one delimited fragment. *)
Lemma prose_pass_keeps_math_free_in_order_witness :
  math_free (paragraph_of " Compute the sum. ") = true
  ∧ paragraph_loop [paragraph_of " Compute the sum. "] ["$$ x+y $$"]
    = ["$$ x+y $$"; "Compute the sum."].
Proof.
  destruct prose_pass_keeps_math_free_in_order as (_ & _ & Hfree & Hone).
  split.
  - apply Hfree. intros d [<-|[]]. reflexivity.
  - rewrite Hone. reflexivity.
Defined.




Lemma nest_no_math n s :
  List.filter (matches ["span"] (Some "math"))
    (nest n (paragraph_of s) :: descendants (nest n (paragraph_of s))) = [].
Proof.
  induction n as [|n IH]; [reflexivity|].
  change (nest (S n) (paragraph_of s)) with (Tag "div" [] [nest n (paragraph_of s)]).
  rewrite descendants_Tag. simpl descendants_of. rewrite app_nil_r.
  exact IH.
Qed.

Lemma nest_strings n s :
  omap string_of
    (nest n (paragraph_of s) :: descendants (nest n (paragraph_of s))) = [s].
Proof.
  induction n as [|n IH]; [reflexivity|].
  change (nest (S n) (paragraph_of s)) with (Tag "div" [] [nest n (paragraph_of s)]).
  rewrite descendants_Tag. simpl descendants_of. rewrite app_nil_r.
  exact IH.
Qed.

Lemma nest_is_Tag n s :
  ∃ nm cs, nest n (paragraph_of s) = Tag nm [] cs ∧ (nm = "p" ∨ nm = "div").
Proof. destruct n; simpl; eauto. Qed.

Lemma nest_text n s : text (nest n (paragraph_of s)) = s.
Proof.
  unfold text. pose proof (nest_strings n s) as H.
  destruct (nest_is_Tag n s) as (nm & cs & Heq & _). rewrite Heq in *.
  change (omap string_of (Tag nm [] cs :: descendants (Tag nm [] cs)))
    with (omap string_of (descendants (Tag nm [] cs))) in H.
  by rewrite H.
Qed.

Lemma nest_math_free n s : math_free (nest n (paragraph_of s)) = true.
Proof.
  unfold math_free, find, find_all. pose proof (nest_no_math n s) as H.
  destruct (nest_is_Tag n s) as (nm & cs & Heq & Hnm). rewrite Heq in *.
  assert (matches ["span"] (Some "math") (Tag nm [] cs) = false) as Hm
    by (by destruct Hnm as [-> | ->]).
  rewrite (filter_cons_false _ _ _ Hm) in H.
  by rewrite H.
Qed.

Lemma nest_containers n s :
  map trimmed
    (List.filter math_free
       (List.filter (matches ["p"; "div"] None)
          (nest n (paragraph_of s) :: descendants (nest n (paragraph_of s)))))
  = repeat (PyStr.strip s) (S n).
Proof.
  induction n as [|n IH]; [reflexivity|].
  change (nest (S n) (paragraph_of s)) with (Tag "div" [] [nest n (paragraph_of s)]).
  rewrite descendants_Tag. simpl descendants_of. rewrite app_nil_r.
  change (Tag "div" [] [nest n (paragraph_of s)]) with (nest (S n) (paragraph_of s)).
  rewrite (filter_cons_true _ (nest (S n) (paragraph_of s))) by reflexivity.
  rewrite (filter_cons_true math_free) by apply nest_math_free.
  rewrite map_cons, IH. unfold trimmed. by rewrite nest_text.
Qed.

Lemma filter_truthy_repeat s n :
  PyStr.truthy s = true → List.filter PyStr.truthy (repeat s n) = repeat s n.
Proof. intros H. induction n as [|n IH]; simpl; [done|]. by rewrite H, IH. Qed.

(** C9: prose nested in math-free containers is emitted once per enclosing
    container.  A region whose only content is a container holding the
    paragraph [A] yields [A], a newline, [A]; in general a paragraph with
    non-blank text inside [n] containers yields its trimmed text [n + 1]
    times. *)
Theorem nested_prose_is_duplicated :
  extract_problem_statement
    (region_of [Tag "div" [] [Tag "p" [] [NavigableString "A"]]])
  = "A" +:+ PyStr.nl +:+ "A"
  ∧ ∀ n s,
      PyStr.truthy (PyStr.strip s) = true →
      extract_problem_statement (region_of [nest n (paragraph_of s)])
      = PyStr.join PyStr.nl (repeat (PyStr.strip s) (S n)).
Proof.
  split; [reflexivity|].
  intros n s Hs. unfold extract_problem_statement, region_of.
  rewrite problem_text_spec, !find_all_Tag. simpl descendants_of.
  rewrite app_nil_r, nest_no_math, nest_containers.
  change (map delimited []) with (@nil string). rewrite app_nil_l.
  by rewrite filter_truthy_repeat.
Qed.

Lemma nested_prose_is_duplicated_witness :
  extract_problem_statement
    (region_of [nest 2 (paragraph_of " Find the sum. ")])
  = PyStr.join PyStr.nl (repeat "Find the sum." 3).
Proof.
  apply (proj2 nested_prose_is_duplicated 2 " Find the sum. "). reflexivity.
Defined.

(** ** Samples and tags *)

Lemma sample_loop_spec l acc : sample_loop l acc = acc ++ omap sample_of l.
Proof.
  unfold sample_loop. revert acc.
  induction l as [|t l IH]; intros acc; simpl.
  - by rewrite app_nil_r.
  - rewrite IH. unfold sample_of at 2.
    destruct (find ["div"] (Some "input") t) as [i|]; simpl; [|done].
    destruct (find ["div"] (Some "output") t) as [o|]; simpl; [|done].
    destruct (find ["pre"] None i) as [ip|]; simpl; [|done].
    destruct (find ["pre"] None o) as [op|]; simpl; [|done].
    by rewrite <- app_assoc.
Qed.

Lemma extract_samples_spec region :
  extract_samples region
  = omap sample_of (find_all ["div"] (Some "sample-test") region).
Proof. unfold extract_samples. by rewrite sample_loop_spec. Qed.

Lemma tag_loop_spec l acc : tag_loop l acc = acc ++ omap tag_of l.
Proof.
  unfold tag_loop. revert acc.
  induction l as [|t l IH]; intros acc; simpl.
  - by rewrite app_nil_r.
  - rewrite IH. unfold tag_of at 2.
    destruct (find ["span"] (Some "tag-box") t) as [sp|]; simpl; [|done].
    by rewrite <- app_assoc.
Qed.

Lemma extract_tags_spec soup :
  extract_tags soup = omap tag_of (find_all ["div"] (Some tag_marker) soup).
Proof.
  unfold extract_tags. fold tag_marker.
  destruct (find_all ["div"] (Some tag_marker) soup) as [|t l] eqn:Heq; [done|].
  by rewrite tag_loop_spec.
Qed.

(** C5: a sample-test element contributes a pair only if its input
    sub-element and its output sub-element are both present, each with an
    inner [pre]; an element without an output sub-element contributes nothing
    and leaves the other pairs as they are; the pairs kept follow the order of
    the sample-test elements in the document. *)
Theorem samples_need_input_and_output :
  (∀ region,
     extract_samples region
     = omap sample_of (find_all ["div"] (Some "sample-test") region))
  ∧ (∀ test pair,
       sample_of test = Some pair →
       ∃ input_div input_pre output_div output_pre,
         find ["div"] (Some "input") test = Some input_div
         ∧ find ["pre"] None input_div = Some input_pre
         ∧ find ["div"] (Some "output") test = Some output_div
         ∧ find ["pre"] None output_div = Some output_pre
         ∧ pair = Dict [("input", Str (PyStr.strip (text input_pre)));
                        ("output", Str (PyStr.strip (text output_pre)))])
  ∧ (∀ test, find ["div"] (Some "output") test = None → sample_of test = None)
  ∧ (∀ before test after acc,
       find ["div"] (Some "output") test = None →
       sample_loop (before ++ test :: after) acc
       = sample_loop (before ++ after) acc)
  ∧ (∀ before after acc,
       sample_loop (before ++ after) acc
       = sample_loop after (sample_loop before acc)
       ∧ sample_loop (before ++ after) []
         = sample_loop before [] ++ sample_loop after []).
Proof.
  assert (∀ test, find ["div"] (Some "output") test = None → sample_of test = None)
    as Hnone.
  { intros test H. unfold sample_of. rewrite H.
    by destruct (find ["div"] (Some "input") test). }
  split; [|split; [|split; [|split]]].
  - apply extract_samples_spec.
  - intros test pair H. unfold sample_of in H.
    destruct (find ["div"] (Some "input") test) as [i|]; simpl in H; [|done].
    destruct (find ["div"] (Some "output") test) as [o|]; simpl in H; [|done].
    destruct (find ["pre"] None i) as [ip|] eqn:Hip; simpl in H; [|done].
    destruct (find ["pre"] None o) as [op|] eqn:Hop; simpl in H; [|done].
    exists i, ip, o, op. simplify_eq. repeat split; done.
  - exact Hnone.
  - intros before test after acc H.
    rewrite !sample_loop_spec, !omap_app. simpl. by rewrite (Hnone test H).
  - intros before after acc. rewrite !sample_loop_spec, omap_app.
    by rewrite app_assoc.
Qed.

(** An instance: three sample-test elements, the second without an output
    sub-element. *)
Lemma samples_need_input_and_output_witness :
  let complete (i o : string) :=
    Tag "div" ["sample-test"]
      [Tag "div" ["input"] [Tag "pre" [] [NavigableString i]];
       Tag "div" ["output"] [Tag "pre" [] [NavigableString o]]] in
  let partial :=
    Tag "div" ["sample-test"]
      [Tag "div" ["input"] [Tag "pre" [] [NavigableString "7"]]] in
  sample_of partial = None
  ∧ sample_loop ([complete "1 2" "3"] ++ partial :: [complete "4 5" "9"]) []
    = [Dict [("input", Str "1 2"); ("output", Str "3")];
       Dict [("input", Str "4 5"); ("output", Str "9")]].
Proof.
  intros complete partial.
  destruct samples_need_input_and_output as (_ & _ & Hnone & Hskip & _).
  split.
  - apply Hnone. reflexivity.
  - rewrite Hskip by reflexivity. reflexivity.
Defined.

(** ** Paths *)

Lemma replace_get old new s i :
  String.get i (PyStr.replace old new s)
  = (fun c => if Ascii.eqb c old then new else c) <$> String.get i s.
Proof.
  revert i. induction s as [|c s IH]; intros i; simpl; [done|].
  destruct i as [|i]; simpl; [done|]. apply IH.
Qed.

Lemma replace_length old new s :
  String.length (PyStr.replace old new s) = String.length s.
Proof. induction s as [|c s IH]; simpl; congruence. Qed.

Lemma os_path_join_data_dir name :
  PyStr.startswith "/" name = false →
  os_path_join data_dir name = data_dir +:+ "/" +:+ name.
Proof. intros H. unfold os_path_join. by rewrite H. Qed.

(** ** Running [scrape_problem] *)

Section Keeps.
Context {B : Type} (component : world → B).

Lemma keeps_ret {A} (a : A) : keeps component (ret a).
Proof. by intros w. Qed.

Lemma keeps_raise {A} e : keeps component (@raise A e).
Proof. by intros w. Qed.

Lemma keeps_bind {A C} (m : M A) (k : A → M C) :
  keeps component m → (∀ a, keeps component (k a)) →
  keeps component (bind m k).
Proof.
  intros Hm Hk w. unfold bind. specialize (Hm w).
  destruct (m w) as [[a|e] w1]; simpl in *; [|done].
  by rewrite Hk.
Qed.

Lemma keeps_try_pass m : keeps component m → keeps component (try_pass m).
Proof.
  intros Hm w. unfold try_pass. specialize (Hm w).
  by destruct (m w) as [[a|e] w1].
Qed.
End Keeps.

Lemma keeps_sessions_print line : keeps sessions (print line).
Proof. by intros w. Qed.
Lemma keeps_files_print line : keeps files (print line).
Proof. by intros w. Qed.
Lemma keeps_sessions_sleep n : keeps sessions (sleep n).
Proof. by intros w. Qed.
Lemma keeps_files_sleep n : keeps files (sleep n).
Proof. by intros w. Qed.
Lemma keeps_sessions_write_file E path content :
  keeps sessions (write_file E path content).
Proof. intros w. unfold write_file. by destruct (fs_fault E path). Qed.
Lemma keeps_sessions_driver_get E url : keeps sessions (driver_get E url).
Proof. intros w. unfold driver_get. by destruct (navigate E url). Qed.
Lemma keeps_files_driver_get E url : keeps files (driver_get E url).
Proof. intros w. unfold driver_get. by destruct (navigate E url). Qed.
Lemma keeps_sessions_driver_current_url E : keeps sessions (driver_current_url E).
Proof. by intros w. Qed.
Lemma keeps_files_driver_current_url E : keeps files (driver_current_url E).
Proof. by intros w. Qed.
Lemma keeps_sessions_wait_until E n : keeps sessions (wait_until E n).
Proof.
  intros w. unfold wait_until.
  destruct (marker E) as [d| |e]; [destruct (d <=? n)| |]; done.
Qed.
Lemma keeps_files_wait_until E n : keeps files (wait_until E n).
Proof.
  intros w. unfold wait_until.
  destruct (marker E) as [d| |e]; [destruct (d <=? n)| |]; done.
Qed.
Lemma keeps_sessions_driver_page_source E : keeps sessions (driver_page_source E).
Proof. intros w. unfold driver_page_source. by destruct (page_source E). Qed.
Lemma keeps_files_driver_page_source E : keeps files (driver_page_source E).
Proof. intros w. unfold driver_page_source. by destruct (page_source E). Qed.

#[local] Hint Resolve keeps_ret keeps_raise keeps_try_pass
  keeps_sessions_print keeps_files_print keeps_sessions_sleep keeps_files_sleep
  keeps_sessions_write_file keeps_sessions_driver_get keeps_files_driver_get
  keeps_sessions_driver_current_url keeps_files_driver_current_url
  keeps_sessions_wait_until keeps_files_wait_until
  keeps_sessions_driver_page_source keeps_files_driver_page_source : keeps.

(** Splits a goal [keeps c m] along the binds and matches of [m]. *)
Ltac keeps_step :=
  match goal with
  | |- keeps _ (bind _ _) => apply keeps_bind; [|intros ?]
  | |- keeps _ (match ?x with _ => _ end) => destruct x
  | |- keeps _ _ => solve [eauto with keeps]
  end.

Lemma keeps_sessions_build_record E id soup region :
  keeps sessions (build_record E id soup region).
Proof. unfold build_record. repeat keeps_step. Qed.

(** Nothing inside the [try] block opens or closes a session. *)
Lemma keeps_sessions_try_body E url id : keeps sessions (try_body E url id).
Proof.
  unfold try_body. repeat keeps_step. apply keeps_sessions_build_record.
Qed.

(** The handler prints its report and returns [None]; it touches neither the
    files nor the session. *)
Lemma handler_run E id e w :
  handler E id e w
  = (Return None,
     World (stdout w ++ report E id e w) (files w) (sessions w)
       (S (url_reads w)) (clock w)).
Proof.
  unfold handler, report, bind, print, try_pass, driver_current_url, ret.
  simpl. destruct (current_url E (url_reads w)) as [u|e']; simpl.
  - by rewrite <- app_assoc.
  - done.
Qed.

(** The shape of every run: a failure to start Chrome propagates; otherwise
    the outcome of the [try] block decides, and the session is closed. *)
Lemma scrape_problem_run E id w :
  scrape_problem E id w
  = match chrome_start E with
    | Some e =>
        (Raise e,
         World (stdout w ++ ["Accessing URL: " +:+ target_url id])
           (files w) (sessions w) (url_reads w) (clock w))
    | None =>
        match try_body E (target_url id) id (started id w) with
        | (Return data, w2) => (Return (Some data), closed w2)
        | (Raise e, w2) =>
            if is_Exception e
            then (Return None, closed (handler E id e w2).2)
            else (Raise e, closed w2)
        end
    end.
Proof.
  unfold scrape_problem. fold (target_url id).
  unfold bind at 1 2. unfold print at 1. unfold setup_driver.
  destruct (chrome_start E) as [e|]; [done|].
  unfold try_finally, try_except.
  cbn [stdout files sessions url_reads clock].
  change (World (stdout w ++ ["Accessing URL: " +:+ target_url id])
            (files w) (S (sessions w)) (url_reads w) (clock w))
    with (started id w).
  unfold bind at 1.
  destruct (try_body E (target_url id) id (started id w)) as [[data|e] w2].
  - done.
  - destruct (is_Exception e); [|done].
    by rewrite handler_run.
Qed.

(** The [try] block when the marker does not show up in time. *)
Lemma try_body_timeout E url id w current :
  navigate E url = None →
  current_url E (url_reads w) = Return current →
  timed_out 20 (marker E) = true →
  try_body E url id w
  = (Raise (TimeoutException timeout_message),
     World (stdout w ++ ["Current URL: " +:+ current]) (files w) (sessions w)
       (S (url_reads w)) (clock w + 20)).
Proof.
  intros Hnav Hurl Hwait.
  unfold try_body, bind, driver_get, driver_current_url, wait_until.
  rewrite Hnav. cbn [ret]. rewrite Hurl. cbn [print stdout files sessions url_reads clock].
  destruct (marker E) as [d| |e]; simpl in Hwait; [|done..].
  destruct (d <=? 20); done.
Qed.

(** The [try] block up to the statement region. *)
Lemma try_body_reaches_record E url id w current delay soup region :
  navigate E url = None →
  current_url E (url_reads w) = Return current →
  marker E = MarkerAfter delay → delay ≤ 20 →
  page_source E = Return soup →
  find ["div"] (Some "problem-statement") soup = Some region →
  try_body E url id w
  = build_record E id soup region
      (World (stdout w ++ ["Current URL: " +:+ current;
                           "Problem statement found, extracting content..."])
         (files w) (sessions w) (S (url_reads w)) (clock w + delay)).
Proof.
  intros Hnav Hurl Hwait Hle Hpage Hfind.
  unfold try_body, bind, driver_get, driver_current_url, wait_until,
    driver_page_source.
  rewrite Hnav. cbn [ret]. rewrite Hurl, Hwait, Hpage.
  apply Nat.leb_le in Hle. rewrite Hle.
  cbn [print sleep ret stdout files sessions url_reads clock].
  rewrite Hfind. by rewrite <- app_assoc.
Qed.

(** The [try] block when the snapshot has no statement region. *)
Lemma try_body_no_region E url id w current delay soup :
  navigate E url = None →
  current_url E (url_reads w) = Return current →
  marker E = MarkerAfter delay → delay ≤ 20 →
  page_source E = Return soup →
  find ["div"] (Some "problem-statement") soup = None →
  try_body E url id w
  = (Raise (Exception "Could not find problem statement"),
     World (stdout w ++ ["Current URL: " +:+ current;
                         "Problem statement found, extracting content..."])
       (files w) (sessions w) (S (url_reads w)) (clock w + delay)).
Proof.
  intros Hnav Hurl Hwait Hle Hpage Hfind.
  unfold try_body, bind, driver_get, driver_current_url, wait_until,
    driver_page_source.
  rewrite Hnav. cbn [ret]. rewrite Hurl, Hwait, Hpage.
  apply Nat.leb_le in Hle. rewrite Hle.
  cbn [print sleep ret stdout files sessions url_reads clock].
  rewrite Hfind. by rewrite <- app_assoc.
Qed.

(** A [try] block that returns has gone through every step. *)
Lemma try_body_Return_inv E url id w data w' :
  try_body E url id w = (Return data, w') →
  ∃ current delay soup region,
    navigate E url = None
    ∧ current_url E (url_reads w) = Return current
    ∧ marker E = MarkerAfter delay ∧ delay ≤ 20
    ∧ page_source E = Return soup
    ∧ find ["div"] (Some "problem-statement") soup = Some region
    ∧ build_record E id soup region
        (World (stdout w ++ ["Current URL: " +:+ current;
                             "Problem statement found, extracting content..."])
           (files w) (sessions w) (S (url_reads w)) (clock w + delay))
      = (Return data, w').
Proof.
  intros Hrun.
  destruct (navigate E url) as [e|] eqn:Hnav.
  { unfold try_body, bind, driver_get in Hrun. by rewrite Hnav in Hrun. }
  destruct (current_url E (url_reads w)) as [current|e] eqn:Hurl.
  2:{ unfold try_body, bind, driver_get, driver_current_url in Hrun.
      rewrite Hnav in Hrun. cbn [ret] in Hrun. by rewrite Hurl in Hrun. }
  destruct (timed_out 20 (marker E)) eqn:Hout.
  { by rewrite (try_body_timeout _ _ _ _ _ Hnav Hurl Hout) in Hrun. }
  destruct (marker E) as [delay| |e] eqn:Hwait; simpl in Hout; [|done|].
  2:{ unfold try_body, bind, driver_get, driver_current_url, wait_until in Hrun.
      rewrite Hnav in Hrun. cbn [ret] in Hrun. by rewrite Hurl, Hwait in Hrun. }
  apply negb_false_iff, Nat.leb_le in Hout.
  destruct (page_source E) as [soup|e] eqn:Hpage.
  2:{ unfold try_body, bind, driver_get, driver_current_url, wait_until,
        driver_page_source in Hrun.
      rewrite Hnav in Hrun. cbn [ret] in Hrun. rewrite Hurl, Hwait, Hpage in Hrun.
      apply Nat.leb_le in Hout. by rewrite Hout in Hrun. }
  destruct (find ["div"] (Some "problem-statement") soup) as [region|] eqn:Hfind.
  2:{ by rewrite (try_body_no_region _ _ _ _ _ _ _ Hnav Hurl Hwait Hout Hpage Hfind)
        in Hrun. }
  exists current, delay, soup, region.
  rewrite (try_body_reaches_record _ _ _ _ _ _ _ _ Hnav Hurl Hwait Hout Hpage Hfind)
    in Hrun.
  done.
Qed.

(** What [build_record] returns and leaves on disk, by the faults of the two
    writes. *)
Lemma build_record_outcome E id soup region w :
  let statement_text := extract_problem_statement region in
  let data := record_of soup region in
  let run := build_record E id soup region w in
  (run.1, files run.2)
  = match fs_fault E (text_file_path id) with
    | OpenFails e => (Raise e, files w)
    | WriteFails e n =>
        (Raise e,
         <[text_file_path id := String.substring 0 n statement_text]> (files w))
    | NoFault =>
        let fs := <[text_file_path id := statement_text]> (files w) in
        match fs_fault E (output_file id) with
        | OpenFails e => (Raise e, fs)
        | WriteFails e n =>
            (Raise e,
             <[output_file id := String.substring 0 n (Json.dumps (Dict data))]> fs)
        | NoFault => (Return data, <[output_file id := Json.dumps (Dict data)]> fs)
        end
    end.
Proof.
  intros statement_text data run. subst statement_text data run.
  unfold build_record, record_of, trimmed.
  destruct (find ["div"] (Some "title") region) as [title_div|];
  destruct (find_all ["div"] (Some "time-limit") region) as [|limits_0 ?];
  destruct (find ["div"] (Some "memory-limit") region) as [memory_limit|];
  unfold bind, print, write_file, ret;
  cbn [stdout files sessions url_reads clock fst snd];
  (destruct (fs_fault E (text_file_path id)); [|done..]);
  cbn [stdout files sessions url_reads clock fst snd];
  destruct (fs_fault E (output_file id)); done.
Qed.

Lemma artifact_paths_differ id : text_file_path id ≠ output_file id.
Proof.
  unfold text_file_path, output_file.
  rewrite !os_path_join_data_dir by done.
  intros H. repeat apply (inj (String.append _)) in H. done.
Qed.

(** A run that returns a record has started Chrome, found the region and
    written both files. *)
Lemma scrape_problem_Some_inv E id w data w' :
  scrape_problem E id w = (Return (Some data), w') →
  ∃ soup region,
    chrome_start E = None
    ∧ page_source E = Return soup
    ∧ find ["div"] (Some "problem-statement") soup = Some region
    ∧ data = record_of soup region
    ∧ files w'
      = <[output_file id := Json.dumps (Dict data)]>
          (<[text_file_path id := extract_problem_statement region]> (files w)).
Proof.
  rewrite scrape_problem_run. intros Hrun.
  destruct (chrome_start E) as [e|] eqn:Hstart; [done|].
  destruct (try_body E (target_url id) id (started id w)) as [[d|e] w2] eqn:Hbody.
  2:{ destruct (is_Exception e); by rewrite ?handler_run in Hrun. }
  injection Hrun as -> <-.
  apply try_body_Return_inv in Hbody
    as (current & delay & soup & region & _ & _ & _ & _ & Hpage & Hfind & Hrec).
  exists soup, region.
  pose proof (build_record_outcome E id soup region
     (World (stdout (started id w) ++
               ["Current URL: " +:+ current;
                "Problem statement found, extracting content..."])
        (files (started id w)) (sessions (started id w))
        (S (url_reads (started id w))) (clock (started id w) + delay))) as Hout.
  cbv zeta in Hout. rewrite Hrec in Hout. cbn [fst snd files started] in Hout.
  destruct (fs_fault E (text_file_path id)); [|done..].
  destruct (fs_fault E (output_file id)); [|done..].
  injection Hout as -> Hfiles. unfold closed. cbn [files]. by rewrite Hfiles.
Qed.

Lemma record_of_tags soup region :
  dict_get "tags" (record_of soup region) = Some (List_ (extract_tags soup)).
Proof.
  unfold record_of.
  destruct (find ["div"] (Some "title") region);
  destruct (find_all ["div"] (Some "time-limit") region);
  destruct (find ["div"] (Some "memory-limit") region); reflexivity.
Qed.

(** ** Artifact names *)

(** C7: both artifacts are named by one stem, [problem_] followed by the
    identifier in which every slash is replaced by an underscore and every
    other character is kept; a run that returns a record has written a file
    under each of the two names. *)
Theorem artifacts_share_sanitized_stem (problem_id : string) :
  let sanitized := PyStr.replace "/" "_" problem_id in
  let stem := "problem_" +:+ sanitized in
  text_file_path problem_id = data_dir +:+ "/" +:+ stem +:+ ".txt"
  ∧ output_file problem_id = data_dir +:+ "/" +:+ stem +:+ ".json"
  ∧ String.length sanitized = String.length problem_id
  ∧ (∀ i, String.get i sanitized = sanitize_char <$> String.get i problem_id)
  ∧ (∀ i, String.get i sanitized ≠ Some "/"%char)
  ∧ (∀ E w data w',
       scrape_problem E problem_id w = (Return (Some data), w') →
       is_Some (files w' !! (data_dir +:+ "/" +:+ stem +:+ ".txt"))
       ∧ is_Some (files w' !! (data_dir +:+ "/" +:+ stem +:+ ".json"))).
Proof.
  intros sanitized stem. subst sanitized stem.
  assert (text_file_path problem_id
          = data_dir +:+ "/" +:+ ("problem_" +:+ PyStr.replace "/" "_" problem_id)
            +:+ ".txt") as Htxt.
  { unfold text_file_path. rewrite os_path_join_data_dir by done.
    by rewrite !append_assoc. }
  assert (output_file problem_id
          = data_dir +:+ "/" +:+ ("problem_" +:+ PyStr.replace "/" "_" problem_id)
            +:+ ".json") as Hjson.
  { unfold output_file. rewrite os_path_join_data_dir by done.
    by rewrite !append_assoc. }
  split; [exact Htxt|]. split; [exact Hjson|].
  split; [apply replace_length|]. split; [|split].
  - intros i. apply replace_get.
  - intros i. rewrite replace_get.
    destruct (String.get i problem_id) as [c|]; simpl; [|done].
    destruct (Ascii.eqb c "/") eqn:Hc; [done|].
    intros [= ->]. done.
  - intros E w data w' Hrun.
    apply scrape_problem_Some_inv in Hrun as (soup & region & _ & _ & _ & _ & ->).
    rewrite <- Htxt, <- Hjson. split.
    + rewrite lookup_insert_ne by (apply not_eq_sym, artifact_paths_differ).
      rewrite lookup_insert_eq. eauto.
    + rewrite lookup_insert_eq. eauto.
Qed.

(** An instance: the identifier [1/A] on the sample page. *)
Lemma artifacts_share_sanitized_stem_witness :
  text_file_path "1/A" = "scraped_data/problem_1_A.txt"
  ∧ output_file "1/A" = "scraped_data/problem_1_A.json"
  ∧ is_Some (files (scrape_problem (serving sample_page) "1/A" fresh).2
               !! "scraped_data/problem_1_A.txt")
  ∧ is_Some (files (scrape_problem (serving sample_page) "1/A" fresh).2
               !! "scraped_data/problem_1_A.json").
Proof.
  destruct (artifacts_share_sanitized_stem "1/A")
    as (Htxt & Hjson & _ & _ & _ & Hwritten).
  split; [exact Htxt|]. split; [exact Hjson|].
  destruct (scrape_problem (serving sample_page) "1/A" fresh) as [r w'] eqn:Hrun.
  assert (∃ data, r = Return (Some data)) as [data ->].
  { vm_compute in Hrun. injection Hrun as <- _. eauto. }
  exact (Hwritten _ _ _ _ Hrun).
Defined.

(** ** Failures *)



Lemma try_body_navigation_failure E url id w e :
  navigate E url = Some e → try_body E url id w = (Raise e, w).
Proof. intros Hnav. unfold try_body, bind, driver_get. by rewrite Hnav. Qed.

Lemma scrape_problem_keeps_sessions E id w :
  chrome_start E = None → sessions (scrape_problem E id w).2 = sessions w.
Proof.
  intros Hstart. rewrite scrape_problem_run, Hstart.
  pose proof (keeps_sessions_try_body E (target_url id) id (started id w)) as Hkeep.
  destruct (try_body E (target_url id) id (started id w)) as [[data|e] w2];
    simpl in Hkeep.
  - simpl. by rewrite Hkeep.
  - destruct (is_Exception e); rewrite ?handler_run; simpl; by rewrite Hkeep.
Qed.




(** ** Tags *)

Lemma keeps_bind_returned {A C B} (component : world → B) (m : M A) (k : A → M C) :
  keeps component m →
  (∀ a w w1, m w = (Return a, w1) → keeps component (k a)) →
  keeps component (bind m k).
Proof.
  intros Hm Hk w. unfold bind. specialize (Hm w).
  destruct (m w) as [[a|e] w1] eqn:Hrun; simpl in *; [|done].
  by rewrite (Hk a w w1 Hrun).
Qed.

(** Without a statement region the [try] block leaves the disk alone. *)
Lemma keeps_files_try_body_no_region E url id soup :
  page_source E = Return soup →
  find ["div"] (Some "problem-statement") soup = None →
  keeps files (try_body E url id).
Proof.
  intros Hpage Hfind. unfold try_body.
  do 5 (apply keeps_bind; [eauto with keeps|intros ?]).
  apply keeps_bind_returned; [eauto with keeps|].
  intros soup' w w1 Hrun. unfold driver_page_source in Hrun.
  rewrite Hpage in Hrun. injection Hrun as <- _.
  rewrite Hfind. eauto with keeps.
Qed.

(** C3, as the code has it: the tags are read from the whole snapshot, from
    every [div] whose class is the compound marker, one tag per container that
    holds a [span.tag-box], in document order; containers before and after the
    statement region count like those inside it.  The record of a successful
    run carries exactly these tags.  The collection is reached only after the
    statement region was found: for a snapshot without it, [scrape_problem]
    returns no record and leaves the disk alone. *)
Theorem tags_come_from_the_whole_snapshot :
  (∀ soup,
     extract_tags soup
     = omap tag_of
         (List.filter (matches ["div"] (Some tag_marker)) (descendants soup)))
  ∧ (∀ nm cl before region after,
       extract_tags (Tag nm cl (before ++ region :: after))
       = omap tag_of
           (List.filter (matches ["div"] (Some tag_marker)) (descendants_of before))
         ++ omap tag_of
              (List.filter (matches ["div"] (Some tag_marker))
                 (region :: descendants region))
         ++ omap tag_of
              (List.filter (matches ["div"] (Some tag_marker)) (descendants_of after)))
  ∧ (∀ E id w data w',
       scrape_problem E id w = (Return (Some data), w') →
       ∃ soup region,
         page_source E = Return soup
         ∧ find ["div"] (Some "problem-statement") soup = Some region
         ∧ dict_get "tags" data = Some (List_ (extract_tags soup)))
  ∧ (∀ E id w soup,
       page_source E = Return soup →
       find ["div"] (Some "problem-statement") soup = None →
       (∀ data, (scrape_problem E id w).1 ≠ Return (Some data))
       ∧ files (scrape_problem E id w).2 = files w).
Proof.
  split; [|split; [|split]].
  - intros soup. by rewrite extract_tags_spec.
  - intros nm cl before region after.
    rewrite extract_tags_spec, find_all_Tag, descendants_of_app.
    simpl descendants_of.
    rewrite List.filter_app, omap_app.
    change (region :: descendants region ++ descendants_of after)
      with ((region :: descendants region) ++ descendants_of after).
    by rewrite List.filter_app, omap_app.
  - intros E id w data w' Hrun.
    apply scrape_problem_Some_inv in Hrun
      as (soup & region & _ & Hpage & Hfind & -> & _).
    exists soup, region. by rewrite record_of_tags.
  - intros E id w soup Hpage Hfind. split.
    + intros data Hrun.
      destruct (scrape_problem E id w) as [r w'] eqn:Heq. simpl in Hrun. subst r.
      apply scrape_problem_Some_inv in Heq
        as (soup' & region & _ & Hpage' & Hfind' & _).
      congruence.
    + rewrite scrape_problem_run.
      destruct (chrome_start E); [done|].
      pose proof (keeps_files_try_body_no_region E (target_url id) id soup
                    Hpage Hfind (started id w)) as Hkeep.
      destruct (try_body E (target_url id) id (started id w)) as [[data|e] w2];
        simpl in Hkeep; [done|].
      destruct (is_Exception e); rewrite ?handler_run; done.
Qed.

(** An instance: the sample page, where the tag container lies outside the
    statement region. *)
Lemma tags_come_from_the_whole_snapshot_witness :
  ∃ data w',
    scrape_problem (serving sample_page) "1/A" fresh = (Return (Some data), w')
    ∧ dict_get "tags" data = Some (List_ [Str "math"])
    ∧ (∀ data', (scrape_problem (serving page_without_region) "1/A" fresh).1
                ≠ Return (Some data')).
Proof.
  destruct tags_come_from_the_whole_snapshot as (_ & _ & Hsome & Hnone).
  destruct (scrape_problem (serving sample_page) "1/A" fresh) as [r w'] eqn:Hrun.
  assert (∃ data, r = Return (Some data)) as [data ->].
  { vm_compute in Hrun. injection Hrun as <- _. eauto. }
  exists data, w'. split; [done|]. split.
  - destruct (Hsome _ _ _ _ _ Hrun) as (soup & region & Hpage & _ & ->).
    injection Hpage as <-. reflexivity.
  - apply (Hnone (serving page_without_region) "1/A" fresh page_without_region);
      reflexivity.
Defined.

(** C3 as stated fails: in a snapshot that has a tag container and no
    statement region, no tag is collected; the run ends at line 57 with
    neither record nor file. *)
Lemma no_tags_without_statement_region :
  find ["div"] (Some "problem-statement") page_without_region = None
  ∧ extract_tags page_without_region = [Str "math"]
  ∧ (scrape_problem (serving page_without_region) "1/A" fresh).1 = Return None
  ∧ files (scrape_problem (serving page_without_region) "1/A" fresh).2 = ∅.
Proof. repeat split; reflexivity. Qed.

(** ** The JSON round trip *)

Section JsonFacts.
Import Json.

Lemma scanstring_escape c t : scanstring (escape c +:+ t) = push c (scanstring t).
Proof. destruct c as [[] [] [] [] [] [] [] []]; reflexivity. Qed.

(** Decoding a string literal gives back the string. *)
Lemma scanstring_escape_all s rest :
  scanstring (escape_all s +:+ String quote rest) = Some (s, rest).
Proof.
  induction s as [|c s IH]; [reflexivity|].
  cbn [escape_all]. by rewrite append_assoc, scanstring_escape, IH.
Qed.

Lemma skip_ws_indent k t : skip_ws (indent k +:+ t) = skip_ws t.
Proof. induction k as [|k IH]; [done|]. cbn [indent]. by rewrite append_assoc. Qed.

Lemma skip_ws_newline_indent k t : skip_ws (newline_indent k +:+ t) = skip_ws t.
Proof. unfold newline_indent. rewrite append_assoc. apply skip_ws_indent. Qed.

Lemma opens_value_not_ws c : opens_value c = true → is_ws c = false.
Proof. destruct c as [[] [] [] [] [] [] [] []]; done. Qed.

Lemma skip_ws_opens c t : opens_value c = true → skip_ws (String c t) = String c t.
Proof. intros H. simpl. by rewrite (opens_value_not_ws c H). Qed.

Lemma iterencode_opens level v :
  ∃ c t, iterencode level v = String c t ∧ opens_value c = true.
Proof. destruct v as [s|[|x xs]|[|kv kvs]]; simpl; eauto. Qed.

Lemma encode_pair_opens enc kv :
  ∃ t, encode_pair enc kv = String quote t.
Proof. destruct kv as [k v]. simpl. eauto. Qed.

Section ScanItems.
Context {A : Type} (enc : A → string) (item : string → option (A * string)).
Context (close : ascii) (level k : nat).
Hypothesis close_not_ws : is_ws close = false.
Hypothesis close_not_comma : Ascii.eqb "," close = false.

(** The loop reads back the items that [more] wrote, when [item] reads back
    each single one and no item starts with white space. *)
Lemma scan_items_more xs : ∀ x n r,
  length xs < n →
  Forall (fun y => (∀ t, item (enc y +:+ t) = Some (y, t))
                   ∧ (∀ t, skip_ws (enc y +:+ t) = enc y +:+ t)) (x :: xs) →
  scan_items item close n
    (enc x +:+ more enc level xs +:+ newline_indent k +:+ String close r)
  = Some (x :: xs, r).
Proof.
  induction xs as [|y ys IH]; intros x n r Hn Hall;
    (destruct n as [|n]; [simpl in Hn; lia|]);
    apply Forall_cons in Hall as [[Hitem _] Hrest]; cbn [scan_items];
    rewrite Hitem.
  - cbn [more String.append]. rewrite skip_ws_newline_indent.
    cbn [skip_ws]. by rewrite close_not_ws, Ascii.eqb_refl.
  - cbn [more]. rewrite !append_assoc. cbn [String.append].
    change (skip_ws (String "," ?t)) with (String "," t).
    cbv beta iota. rewrite close_not_comma, Ascii.eqb_refl.
    rewrite skip_ws_newline_indent.
    pose proof Hrest as [[_ Hskip] _]%Forall_cons. rewrite Hskip.
    rewrite IH; [done|simpl in Hn; lia|done].
Qed.
End ScanItems.

Lemma dict_set_fresh k v d :
  existsb (String.eqb k) (map fst d) = false → dict_set k v d = d ++ [(k, v)].
Proof.
  induction d as [|[k' v'] d IH]; simpl; [done|].
  intros [Hk Hd]%orb_false_elim. rewrite String.eqb_sym, Hk. by rewrite IH.
Qed.

Lemma existsb_app_false {X} (f : X → bool) l1 l2 :
  existsb f l1 = false → existsb f l2 = false → existsb f (l1 ++ l2) = false.
Proof. intros H1 H2. by rewrite existsb_app, H1, H2. Qed.

Lemma dict_of_pairs_from acc kvs :
  keys_distinct kvs = true →
  (∀ k, In k (map fst kvs) → existsb (String.eqb k) (map fst acc) = false) →
  fold_left (fun d kv => dict_set kv.1 kv.2 d) kvs acc = acc ++ kvs.
Proof.
  revert acc. induction kvs as [|[k v] kvs IH]; intros acc Hkeys Hacc; simpl.
  - by rewrite app_nil_r.
  - simpl in Hkeys. apply andb_true_iff in Hkeys as [Hk Hkeys].
    apply negb_true_iff in Hk.
    rewrite dict_set_fresh by (apply Hacc; by left).
    rewrite IH; [by rewrite <- app_assoc|done|].
    intros k' Hk'. rewrite map_app. apply existsb_app_false.
    + apply Hacc. by right.
    + simpl. rewrite orb_false_r.
      destruct (String.eqb_spec k' k) as [->|]; [|done].
      exfalso. rewrite <- not_true_iff_false in Hk. apply Hk, existsb_exists.
      exists k. split; [done|apply String.eqb_refl].
Qed.

(** Building a dictionary from pairs with different keys keeps the pairs. *)
Lemma dict_of_pairs_distinct kvs :
  keys_distinct kvs = true → dict_of_pairs kvs = kvs.
Proof. intros H. unfold dict_of_pairs. by rewrite dict_of_pairs_from. Qed.

Lemma size_item_le x (xs : list value) :
  In x xs → S (size x) ≤ list_sum (map (fun y => S (size y)) xs).
Proof.
  induction xs as [|y ys IH]; simpl; [done|].
  intros [->|Hin]; [lia|]. specialize (IH Hin). lia.
Qed.

Lemma size_entry_le kv (kvs : dict) :
  In kv kvs → S (size kv.2) ≤ list_sum (map (fun y => S (size y.2)) kvs).
Proof.
  induction kvs as [|y ys IH]; simpl; [done|].
  intros [->|Hin]; [lia|]. specialize (IH Hin). lia.
Qed.

Lemma length_le_sum {X} (f : X → nat) (xs : list X) :
  length xs ≤ list_sum (map (fun y => S (f y)) xs).
Proof. induction xs as [|y ys IH]; simpl; lia. Qed.

(** [scan_once] reads back what [iterencode] wrote, at any depth and before
    any rest of input. *)
Lemma scan_once_iterencode fuel : ∀ v level rest,
  size v ≤ fuel → well_keyed v = true →
  scan_once fuel (iterencode level v +:+ rest) = Some (v, rest).
Proof.
  induction fuel as [|fuel IH]; intros v level rest Hsize Hkeys.
  { destruct v; simpl in Hsize; lia. }
  assert (∀ y lvl, size y ≤ fuel → well_keyed y = true →
                   (∀ t, scan_once fuel (iterencode lvl y +:+ t) = Some (y, t))
                   ∧ (∀ t, skip_ws (iterencode lvl y +:+ t) = iterencode lvl y +:+ t))
    as Hvalue.
  { intros y lvl Hy Hwk. split; [intros t; by apply IH|].
    intros t. destruct (iterencode_opens lvl y) as (c & t' & -> & Hc).
    cbn [String.append]. by apply skip_ws_opens. }
  destruct v as [s|[|x xs]|[|kv kvs]].
  - cbn [iterencode scan_once encode_basestring String.append].
    change (Ascii.eqb quote quote) with true. cbv beta iota.
    rewrite append_assoc. cbn [String.append].
    by rewrite scanstring_escape_all.
  - reflexivity.
  - cbn [iterencode]. rewrite !append_assoc.
    cbn [String.append scan_once].
    change (Ascii.eqb "[" quote) with false.
    change (Ascii.eqb "[" "[") with true. cbv beta iota.
    rewrite skip_ws_newline_indent.
    simpl in Hsize, Hkeys. apply andb_true_iff in Hkeys as [Hx Hxs].
    destruct (Hvalue x (S level)) as [Hscan Hskip]; [lia|done|].
    rewrite Hskip.
    destruct (iterencode_opens (S level) x) as (c & t' & Heq & Hc).
    rewrite Heq at 1. cbn [String.append].
    assert (Ascii.eqb c "]" = false) as ->.
    { destruct c as [[] [] [] [] [] [] [] []]; done. }
    change (String c (t' +:+ ?t)) with (String c t' +:+ t). rewrite <- Heq.
    rewrite (scan_items_more (iterencode (S level)) (scan_once fuel) "]"
               (S level) level eq_refl eq_refl).
    + done.
    + pose proof (length_le_sum size xs). lia.
    + apply List.Forall_forall. intros y Hy. apply Hvalue.
      * destruct Hy as [<-|Hy]; [lia|].
        pose proof (size_item_le y xs Hy). lia.
      * destruct Hy as [<-|Hy]; [done|].
        by apply (proj1 (forallb_forall _ _) Hxs).
  - reflexivity.
  - cbn [iterencode]. rewrite !append_assoc.
    cbn [String.append scan_once].
    change (Ascii.eqb "{" quote) with false.
    change (Ascii.eqb "{" "[") with false.
    change (Ascii.eqb "{" "{") with true. cbv beta iota.
    rewrite skip_ws_newline_indent.
    simpl in Hsize. cbn [well_keyed] in Hkeys.
    apply andb_true_iff in Hkeys as [Hdistinct Hall].
    assert (∀ y, In y (kv :: kvs) →
      (∀ t, scan_pair (scan_once fuel)
              (encode_pair (iterencode (S level)) y +:+ t) = Some (y, t))
      ∧ (∀ t, skip_ws (encode_pair (iterencode (S level)) y +:+ t)
              = encode_pair (iterencode (S level)) y +:+ t)) as Hpair.
    { intros [key val] Hin.
      assert (size val ≤ fuel) as Hval.
      { pose proof (size_entry_le (key, val) (kv :: kvs) Hin) as Hle.
        simpl in Hle. lia. }
      assert (well_keyed val = true) as Hwk
        by apply (proj1 (forallb_forall _ _) Hall (key, val) Hin).
      destruct (Hvalue val (S level) Hval Hwk) as [Hscan Hskip].
      split; intros t.
      - cbn [encode_pair]. unfold encode_basestring.
        repeat first [rewrite append_assoc | progress cbn [String.append]].
        cbn [scan_pair].
        change (Ascii.eqb quote quote) with true. cbv beta iota.
        rewrite scanstring_escape_all.
        change (skip_ws (String ":" ?u)) with (String ":" u).
        cbv beta iota. change (Ascii.eqb ":" ":") with true. cbv beta iota.
        change (skip_ws (String " " ?u)) with (skip_ws u).
        by rewrite Hskip, Hscan.
      - reflexivity. }
    destruct (Hpair kv) as [_ Hskip]; [by left|]. rewrite Hskip.
    destruct (encode_pair_opens (iterencode (S level)) kv) as [t' Heq].
    rewrite Heq at 1. cbn [String.append].
    change (Ascii.eqb quote "}") with false. cbv beta iota.
    change (String quote (t' +:+ ?t)) with (String quote t' +:+ t). rewrite <- Heq.
    rewrite (scan_items_more (encode_pair (iterencode (S level)))
               (scan_pair (scan_once fuel)) "}" (S level) level eq_refl eq_refl).
    + by rewrite dict_of_pairs_distinct.
    + pose proof (length_le_sum (fun y : string * value => size y.2) kvs). lia.
    + apply List.Forall_forall. intros y Hy. by apply Hpair.
Qed.
End JsonFacts.

Section JsonRoundTrip.
Import Json.

Lemma more_length {A} (enc : A → string) (f : A → nat) level (xs : list A) :
  (∀ y, In y xs → f y ≤ String.length (enc y)) →
  list_sum (map (fun y => S (f y)) xs) ≤ String.length (more enc level xs).
Proof.
  induction xs as [|y ys IH]; intros Hle; [done|].
  cbn [more map]. change (list_sum (?a :: ?l)) with (a + list_sum l). rewrite !length_append. cbn [String.length].
  specialize (Hle y (or_introl eq_refl)) as Hy.
  specialize (IH (fun z Hz => Hle z (or_intror Hz))). lia.
Qed.

(** The fuel [loads] takes from the length of its input is enough for what
    [dumps] writes. *)
Lemma size_le_length n : ∀ v level,
  size v ≤ n → size v ≤ String.length (iterencode level v).
Proof.
  induction n as [|n IH]; intros v level Hn.
  { destruct v; simpl in Hn; lia. }
  destruct v as [s|[|x xs]|[|[k x] kvs]]; cbn [iterencode].
  - unfold encode_basestring. simpl. lia.
  - simpl. lia.
  - simpl in Hn. rewrite !length_append. cbn [String.length size map].
    change (list_sum (?a :: ?l)) with (a + list_sum l).
    pose proof (IH x (S level) ltac:(lia)).
    pose proof (more_length (iterencode (S level)) size (S level) xs) as Hmore.
    unfold newline_indent at 1. rewrite length_append. cbn [String.length PyStr.nl].
    assert (∀ y, In y xs → size y ≤ String.length (iterencode (S level) y)) as Hall.
    { intros y Hy. apply IH. pose proof (size_item_le y xs Hy). lia. }
    specialize (Hmore Hall). lia.
  - simpl. lia.
  - simpl in Hn. cbn [encode_pair]. rewrite !length_append.
    cbn [String.length size map snd].
    change (list_sum (?a :: ?l)) with (a + list_sum l).
    pose proof (IH x (S level) ltac:(lia)).
    pose proof (more_length (encode_pair (iterencode (S level)))
                  (fun kv : string * value => size kv.2) (S level) kvs) as Hmore.
    unfold newline_indent at 1. rewrite length_append. cbn [String.length PyStr.nl].
    assert (∀ y, In y kvs →
              size y.2 ≤ String.length (encode_pair (iterencode (S level)) y))
      as Hall.
    { intros [k' y] Hy. cbn [encode_pair snd]. rewrite !length_append.
      pose proof (size_entry_le (k', y) kvs Hy) as Hle. cbn [snd] in Hle.
      pose proof (IH y (S level) ltac:(lia)). lia. }
    specialize (Hmore Hall). lia.
Qed.

(** Reading back what [dumps] wrote gives the value. *)
Lemma loads_dumps v : well_keyed v = true → loads (dumps v) = Some v.
Proof.
  intros Hkeys. unfold loads, dumps.
  assert (skip_ws (iterencode 0 v) = iterencode 0 v) as ->.
  { destruct (iterencode_opens 0 v) as (c & t & -> & Hc). by apply skip_ws_opens. }
  rewrite <- (append_empty_r (iterencode 0 v)) at 2.
  rewrite scan_once_iterencode; [done| |done].
  pose proof (size_le_length (size v) v 0 (le_n _)). lia.
Qed.

End JsonRoundTrip.

Lemma samples_well_keyed l : forallb well_keyed (omap sample_of l) = true.
Proof.
  induction l as [|t l IH]; [done|]. simpl. unfold sample_of at 1.
  destruct (find ["div"] (Some "input") t) as [i|]; simpl; [|done].
  destruct (find ["div"] (Some "output") t) as [o|]; simpl; [|done].
  destruct (find ["pre"] None i) as [ip|]; simpl; [|done].
  destruct (find ["pre"] None o) as [op|]; simpl; done.
Qed.

Lemma tags_well_keyed l : forallb well_keyed (omap tag_of l) = true.
Proof.
  induction l as [|t l IH]; [done|]. simpl. unfold tag_of at 1.
  destruct (find ["span"] (Some "tag-box") t) as [sp|]; simpl; done.
Qed.

(** The record holds text, a list of input/output pairs and a list of text,
    under keys that differ. *)
Lemma record_of_well_keyed soup region :
  well_keyed (Dict (record_of soup region)) = true.
Proof.
  pose proof (extract_samples_spec region) as Hsamples.
  pose proof (extract_tags_spec soup) as Htags.
  pose proof (samples_well_keyed (find_all ["div"] (Some "sample-test") region))
    as Hs.
  pose proof (tags_well_keyed (find_all ["div"] (Some tag_marker) soup)) as Ht.
  rewrite <- Hsamples in Hs. rewrite <- Htags in Ht.
  unfold record_of.
  generalize dependent (extract_samples region).
  generalize dependent (extract_tags soup).
  intros tags _ Htags samples _ Hsamples.
  destruct (find ["div"] (Some "title") region);
  destruct (find_all ["div"] (Some "time-limit") region);
  destruct (find ["div"] (Some "memory-limit") region);
  cbn; by rewrite Hsamples, Htags.
Qed.

(** C8: the record a successful run returns is what a reader of the JSON
    artifact gets back.  The artifact holds [json.dumps] of the record, and
    [json.loads] of that text is the record again: the same keys in the same
    order with the same values, the samples and the tags in their order.  The
    same holds for every value whose dictionaries have pairwise different
    keys. *)
Theorem json_artifact_round_trip :
  (∀ E id w data w',
     scrape_problem E id w = (Return (Some data), w') →
     ∃ written,
       files w' !! output_file id = Some written
       ∧ written = Json.dumps (Dict data)
       ∧ Json.loads written = Some (Dict data))
  ∧ (∀ v, well_keyed v = true → Json.loads (Json.dumps v) = Some v).
Proof.
  split; [|exact loads_dumps].
  intros E id w data w' Hrun.
  apply scrape_problem_Some_inv in Hrun
    as (soup & region & _ & _ & _ & -> & ->).
  exists (Json.dumps (Dict (record_of soup region))).
  split; [apply lookup_insert_eq|]. split; [done|].
  apply loads_dumps, record_of_well_keyed.
Qed.

(** An instance: the sample page, scraped without faults. *)
Lemma json_artifact_round_trip_witness :
  ∃ data written,
    (scrape_problem (serving sample_page) "1/A" fresh).1 = Return (Some data)
    ∧ files (scrape_problem (serving sample_page) "1/A" fresh).2
        !! "scraped_data/problem_1_A.json" = Some written
    ∧ Json.loads written = Some (Dict data)
    ∧ dict_get "samples" data
      = Some (List_ [Dict [("input", Str "6 6 4"); ("output", Str "4")]]).
Proof.
  destruct (scrape_problem (serving sample_page) "1/A" fresh) as [r w'] eqn:Hrun.
  assert (∃ data, r = Return (Some data)
                  ∧ dict_get "samples" data
                    = Some (List_ [Dict [("input", Str "6 6 4");
                                         ("output", Str "4")]]))
    as (data & -> & Hsamples).
  { vm_compute in Hrun. injection Hrun as <- _. eauto. }
  destruct (proj1 json_artifact_round_trip _ _ _ _ _ Hrun)
    as (written & Hfile & _ & Hloads).
  exists data, written. auto.
Defined.

(** * Further properties of the code *)

(** ** The statement text *)

Section Tight.
Import PyStr.

Lemma rstrip_app a b : rstrip b ≠ "" → rstrip (a +:+ b) = a +:+ rstrip b.
Proof.
  intros Hb. induction a as [|c a IH]; [done|].
  cbn [String.append rstrip]. rewrite IH.
  destruct (a +:+ rstrip b) eqn:Heq; [|done].
  destruct a; simpl in Heq; [done|discriminate].
Qed.

Lemma rstrip_idem s : rstrip (rstrip s) = rstrip s.
Proof.
  induction s as [|c s IH]; [done|]. cbn [rstrip].
  destruct (rstrip s) as [|a r] eqn:Hs.
  - destruct (isspace c) eqn:Hc; [done|]. simpl. by rewrite Hc.
  - cbn [rstrip]. cbn [rstrip] in IH. by rewrite IH.
Qed.

Lemma lstrip_strip s : lstrip (strip s) = strip s.
Proof.
  destruct (strip_cases s) as [->|(c & r & -> & Hc)]; [done|].
  simpl. by rewrite Hc.
Qed.

Lemma rstrip_strip s : rstrip (strip s) = strip s.
Proof. unfold strip. apply rstrip_idem. Qed.

Lemma lstrip_app_nonempty a b :
  truthy a = true → lstrip a = a → lstrip (a +:+ b) = a +:+ b.
Proof.
  destruct a as [|c a]; [done|]. intros _ Ha. simpl in *.
  destruct (isspace c); [|done].
  exfalso. assert (String.length (lstrip a) ≤ String.length a) as Hle.
  { clear. induction a as [|d a IH]; simpl; [done|].
    destruct (isspace d); simpl; lia. }
  rewrite Ha in Hle. simpl in Hle. lia.
Qed.

Lemma truthy_app_l a b : truthy a = true → truthy (a +:+ b) = true.
Proof. by destruct a. Qed.

Lemma truthy_not_empty s : truthy s = true → s ≠ "".
Proof. by destruct s. Qed.

(** Joining non-empty fragments that neither start nor end with white space
    gives such a string again. *)
Lemma join_tight frags :
  Forall (fun f => truthy f = true ∧ lstrip f = f ∧ rstrip f = f) frags →
  lstrip (join nl frags) = join nl frags
  ∧ rstrip (join nl frags) = join nl frags
  ∧ (frags ≠ [] → truthy (join nl frags) = true).
Proof.
  induction frags as [|f frags IH]; [done|].
  intros [(Hf & Hl & Hr) Hrest]%Forall_cons.
  destruct frags as [|g frags]; [done|].
  destruct (IH Hrest) as (IHl & IHr & IHt). specialize (IHt ltac:(done)).
  change (join nl (f :: g :: frags)) with (f +:+ nl +:+ join nl (g :: frags)).
  split; [by apply lstrip_app_nonempty|]. split; [|intros _; by apply truthy_app_l].
  assert (rstrip (nl +:+ join nl (g :: frags)) = nl +:+ join nl (g :: frags)) as Hnl.
  { rewrite rstrip_app; rewrite IHr; [done|by apply truthy_not_empty]. }
  rewrite rstrip_app; rewrite Hnl; [done|done].
Qed.

Lemma delimited_tight x :
  truthy (delimited x) = true
  ∧ lstrip (delimited x) = delimited x
  ∧ rstrip (delimited x) = delimited x.
Proof.
  unfold delimited. split; [done|]. split; [done|].
  assert (rstrip (strip (text x) +:+ " $$") = strip (text x) +:+ " $$") as Hin.
  { by rewrite rstrip_app. }
  rewrite rstrip_app; rewrite Hin; [done|].
  by destruct (strip (text x)).
Qed.

Lemma kept_fragments_tight region :
  Forall (fun f => truthy f = true ∧ lstrip f = f ∧ rstrip f = f)
    (List.filter truthy (problem_text region)).
Proof.
  rewrite problem_text_spec, List.filter_app. apply Forall_app. split.
  - induction (find_all ["span"] (Some "math") region) as [|m ms IH]; [done|].
    rewrite map_cons, filter_cons_true by apply delimited_tight.
    constructor; [apply delimited_tight|done].
  - induction (List.filter math_free (find_all ["p"; "div"] None region))
      as [|q qs IH]; [done|].
    rewrite map_cons. destruct (truthy (trimmed q)) eqn:Ht.
    + rewrite filter_cons_true by done. constructor; [|done].
      split; [done|]. unfold trimmed. by rewrite lstrip_strip, rstrip_strip.
    + by rewrite filter_cons_false.
Qed.

End Tight.

(** X1: the statement text needs no trimming: it neither starts nor ends with
    white space, so stripping it changes nothing. *)
Theorem statement_is_trimmed region :
  PyStr.strip (extract_problem_statement region) = extract_problem_statement region
  ∧ PyStr.lstrip (extract_problem_statement region)
    = extract_problem_statement region
  ∧ PyStr.rstrip (extract_problem_statement region)
    = extract_problem_statement region.
Proof.
  unfold extract_problem_statement.
  destruct (join_tight _ (kept_fragments_tight region)) as (Hl & Hr & _).
  unfold PyStr.strip. by rewrite Hl, Hr.
Qed.

(** X2: a math span always leaves its fragment, even when its text is blank,
    whereas the text of a paragraph or container is kept only when it is not
    blank: the fragments that reach the output are all the delimited math
    texts followed by the non-empty trimmed texts of the math-free elements. *)
Theorem math_fragments_are_never_dropped region :
  List.filter PyStr.truthy (problem_text region)
  = map delimited (find_all ["span"] (Some "math") region)
    ++ List.filter PyStr.truthy
         (map trimmed
            (List.filter math_free (find_all ["p"; "div"] None region)))
  ∧ length (find_all ["span"] (Some "math") region)
    ≤ length (List.filter PyStr.truthy (problem_text region))
  ∧ ∀ s, extract_problem_statement (region_of [math_of s])
         = "$$ " +:+ PyStr.strip s +:+ " $$".
Proof.
  assert (List.filter PyStr.truthy (problem_text region)
          = map delimited (find_all ["span"] (Some "math") region)
            ++ List.filter PyStr.truthy
                 (map trimmed
                    (List.filter math_free (find_all ["p"; "div"] None region))))
    as Heq.
  { rewrite problem_text_spec, List.filter_app. f_equal.
    induction (find_all ["span"] (Some "math") region) as [|m ms IH]; [done|].
    rewrite map_cons, filter_cons_true by apply delimited_tight. by rewrite IH. }
  split; [exact Heq|]. split.
  - rewrite Heq, length_app, length_map. lia.
  - intros s. reflexivity.
Qed.

Lemma join_empty_iff frags :
  Forall (fun f => PyStr.truthy f = true) frags →
  PyStr.join PyStr.nl frags = "" ↔ frags = [].
Proof.
  intros Hall. split; [|by intros ->].
  destruct frags as [|f frags]; [done|].
  apply Forall_cons in Hall as [Hf _]. destruct f as [|c f]; [done|].
  destruct frags; simpl; discriminate.
Qed.

(** X3: the statement text is empty exactly when the region has no math span
    and every math-free paragraph or container in it has blank text; an empty
    region is the plainest case. *)
Theorem statement_empty_iff region :
  extract_problem_statement region = ""
  ↔ find_all ["span"] (Some "math") region = []
    ∧ ∀ q, In q (find_all ["p"; "div"] None region) →
           math_free q = true → trimmed q = "".
Proof.
  unfold extract_problem_statement.
  rewrite join_empty_iff.
  2:{ apply List.Forall_forall. intros f Hf.
      apply List.filter_In in Hf. tauto. }
  rewrite problem_text_spec, List.filter_app. split.
  - intros Heq. apply app_eq_nil in Heq as [Hm Hp]. split.
    + destruct (find_all ["span"] (Some "math") region); [done|discriminate].
    + intros q Hq Hfree.
      destruct (trimmed q) as [|c r] eqn:Ht; [done|]. exfalso.
      assert (In (trimmed q)
                (List.filter PyStr.truthy
                   (map trimmed
                      (List.filter math_free
                         (find_all ["p"; "div"] None region))))) as Hin.
      { apply List.filter_In. split; [|by rewrite Ht].
        apply in_map, List.filter_In. done. }
      rewrite Hp in Hin. destruct Hin.
  - intros [-> Hblank]. simpl.
    induction (find_all ["p"; "div"] None region) as [|q qs IH]; [done|].
    simpl. destruct (math_free q) eqn:Hfree.
    + simpl. rewrite (Hblank q) by (done || by left). simpl.
      apply IH. intros q' Hq'. apply Hblank. by right.
    + apply IH. intros q' Hq'. apply Hblank. by right.
Qed.

Lemma statement_empty_iff_witness :
  extract_problem_statement
    (region_of [paragraph_of "  "; Tag "pre" [] [NavigableString "kept out"]])
  = "".
Proof.
  apply statement_empty_iff. split; [reflexivity|].
  intros q [<-|[]] _. reflexivity.
Defined.

(** X20: the words around inline math are lost.  When every paragraph and
    container of the region holds a math span, as in a region made of one
    paragraph with text and a span inside, the statement text consists of the
    delimited math alone. *)
Theorem prose_around_math_is_dropped region :
  (∀ q, In q (find_all ["p"; "div"] None region) → math_free q = false) →
  extract_problem_statement region
  = PyStr.join PyStr.nl (map delimited (find_all ["span"] (Some "math") region)).
Proof.
  intros Hall. unfold extract_problem_statement.
  rewrite problem_text_spec.
  assert (List.filter math_free (find_all ["p"; "div"] None region) = []) as ->.
  { induction (find_all ["p"; "div"] None region) as [|q qs IH]; [done|].
    rewrite filter_cons_false by (apply Hall; by left).
    apply IH. intros q' Hq'. apply Hall. by right. }
  simpl map at 2. rewrite app_nil_r. f_equal.
  induction (find_all ["span"] (Some "math") region) as [|m ms IH]; [done|].
  rewrite map_cons, filter_cons_true by apply delimited_tight. by rewrite IH.
Qed.

Lemma prose_around_math_is_dropped_witness :
  extract_problem_statement
    (region_of [Tag "p" [] [NavigableString "Find the value of ";
                            math_of "a^2"; NavigableString " for every ";
                            math_of "a"; NavigableString "."]])
  = "$$ a^2 $$" +:+ PyStr.nl +:+ "$$ a $$".
Proof.
  rewrite prose_around_math_is_dropped; [reflexivity|].
  intros q [<-|[]]. reflexivity.
Defined.

(** ** Samples and tags, entry by entry *)

Lemma strip_idem s : PyStr.strip (PyStr.strip s) = PyStr.strip s.
Proof.
  unfold PyStr.strip at 1. fold (PyStr.strip s).
  by rewrite lstrip_strip, rstrip_strip.
Qed.

Lemma omap_length_le {A B} (f : A → option B) (l : list A) :
  length (omap f l) ≤ length l.
Proof.
  induction l as [|x l IH]; [done|].
  change (omap f (x :: l))
    with (match f x with Some y => y :: omap f l | None => omap f l end).
  destruct (f x); simpl; lia.
Qed.

(** X4: [samples] has at most one entry per sample-test element and none
    when there is no such element; every entry is a dictionary with exactly
    the keys [input] and [output], in this order, each holding a string that
    is already trimmed. *)
Theorem samples_are_trimmed_pairs region :
  length (extract_samples region)
  ≤ length (find_all ["div"] (Some "sample-test") region)
  ∧ (find_all ["div"] (Some "sample-test") region = [] →
     extract_samples region = [])
  ∧ Forall (fun v => ∃ i o, v = Dict [("input", Str i); ("output", Str o)]
                            ∧ PyStr.strip i = i ∧ PyStr.strip o = o)
      (extract_samples region).
Proof.
  rewrite extract_samples_spec. split; [apply omap_length_le|].
  split; [by intros ->|].
  induction (find_all ["div"] (Some "sample-test") region) as [|t l IH]; [done|].
  simpl. unfold sample_of at 1.
  destruct (find ["div"] (Some "input") t) as [i|]; simpl; [|done].
  destruct (find ["div"] (Some "output") t) as [o|]; simpl; [|done].
  destruct (find ["pre"] None i) as [ip|]; simpl; [|done].
  destruct (find ["pre"] None o) as [op|]; simpl; [|done].
  constructor; [|done].
  exists (PyStr.strip (text ip)), (PyStr.strip (text op)).
  by rewrite !strip_idem.
Qed.

Lemma samples_are_trimmed_pairs_witness :
  extract_samples (region_of [paragraph_of "No examples here."]) = [].
Proof.
  apply (proj1 (proj2 (samples_are_trimmed_pairs
                         (region_of [paragraph_of "No examples here."])))).
  reflexivity.
Defined.

(** X5: [tags] has at most one entry per tag container and none when the
    snapshot has no container; every entry is a trimmed string. *)
Theorem tags_are_trimmed_strings soup :
  length (extract_tags soup)
  ≤ length (find_all ["div"] (Some tag_marker) soup)
  ∧ (find_all ["div"] (Some tag_marker) soup = [] → extract_tags soup = [])
  ∧ Forall (fun v => ∃ t, v = Str t ∧ PyStr.strip t = t) (extract_tags soup).
Proof.
  rewrite extract_tags_spec. split; [apply omap_length_le|].
  split; [by intros ->|].
  induction (find_all ["div"] (Some tag_marker) soup) as [|t l IH]; [done|].
  simpl. unfold tag_of at 1.
  destruct (find ["span"] (Some "tag-box") t) as [sp|]; simpl; [|done].
  constructor; [|done]. exists (PyStr.strip (text sp)). by rewrite strip_idem.
Qed.

Lemma tags_are_trimmed_strings_witness :
  extract_tags (Tag "[document]" [] [region_of [paragraph_of "Untagged."]]) = [].
Proof.
  apply (proj1 (proj2 (tags_are_trimmed_strings
           (Tag "[document]" [] [region_of [paragraph_of "Untagged."]])))).
  reflexivity.
Defined.

(** ** When two identifiers share their artifacts *)

Lemma append_inj_r (a b t : string) : a +:+ t = b +:+ t → a = b.
Proof.
  intros Heq.
  assert (String.length a = String.length b) as Hlen.
  { apply (f_equal String.length) in Heq. rewrite !length_append in Heq. lia. }
  revert b Heq Hlen. induction a as [|c a IH]; intros [|d b] Heq Hlen;
    simpl in Hlen; try lia; [done|].
  simpl in Heq. injection Heq as -> Heq. f_equal. apply IH; [done|lia].
Qed.

Lemma replace_idem old new s :
  old ≠ new →
  PyStr.replace old new (PyStr.replace old new s) = PyStr.replace old new s.
Proof.
  intros Hne. induction s as [|c s IH]; [done|]. simpl. rewrite IH. f_equal.
  destruct (Ascii.eqb c old) eqn:Hc; [|by rewrite Hc].
  destruct (Ascii.eqb_spec new old) as [->|]; done.
Qed.

(** X6: two identifiers are written to the same text file exactly when they
    agree once every slash is an underscore, and likewise for the JSON file;
    so an identifier and its sanitized form (as [1/A] and [1_A]) share both
    artifacts. *)
Theorem artifacts_collide_iff_sanitized_equal id id' :
  (text_file_path id = text_file_path id'
   ↔ PyStr.replace "/" "_" id = PyStr.replace "/" "_" id')
  ∧ (output_file id = output_file id'
     ↔ PyStr.replace "/" "_" id = PyStr.replace "/" "_" id')
  ∧ text_file_path (PyStr.replace "/" "_" id) = text_file_path id
  ∧ output_file (PyStr.replace "/" "_" id) = output_file id.
Proof.
  assert (∀ suffix,
    os_path_join data_dir ("problem_" +:+ PyStr.replace "/" "_" id +:+ suffix)
    = os_path_join data_dir ("problem_" +:+ PyStr.replace "/" "_" id' +:+ suffix)
    ↔ PyStr.replace "/" "_" id = PyStr.replace "/" "_" id') as Hiff.
  { intros suffix. rewrite !os_path_join_data_dir by done. split.
    - intros H. repeat apply (inj (String.append _)) in H.
      by apply append_inj_r in H.
    - by intros ->. }
  split; [apply Hiff|]. split; [apply Hiff|].
  unfold text_file_path, output_file. by rewrite replace_idem.
Qed.

Lemma artifacts_collide_iff_sanitized_equal_witness :
  text_file_path "1/A" = text_file_path "1_A"
  ∧ output_file "2/B/x" = output_file "2_B/x".
Proof.
  split.
  - apply (proj1 (artifacts_collide_iff_sanitized_equal "1/A" "1_A")). reflexivity.
  - apply (proj1 (proj2 (artifacts_collide_iff_sanitized_equal "2/B/x" "2_B/x"))).
    reflexivity.
Defined.

(** ** The record of a successful run *)

Lemma record_of_fields soup region :
  dict_get "title" (record_of soup region)
  = (fun t => Str (trimmed t)) <$> find ["div"] (Some "title") region
  ∧ dict_get "time_limit" (record_of soup region)
    = (fun t => Str (trimmed t))
        <$> head (find_all ["div"] (Some "time-limit") region)
  ∧ dict_get "memory_limit" (record_of soup region)
    = (fun t => Str (trimmed t)) <$> find ["div"] (Some "memory-limit") region
  ∧ dict_get "statement" (record_of soup region)
    = Some (Str (extract_problem_statement region))
  ∧ dict_get "samples" (record_of soup region)
    = Some (List_ (extract_samples region)).
Proof.
  unfold record_of.
  destruct (find ["div"] (Some "title") region);
  destruct (find_all ["div"] (Some "time-limit") region);
  destruct (find ["div"] (Some "memory-limit") region);
  repeat split; reflexivity.
Qed.

Lemma record_of_keys soup region :
  map fst (record_of soup region)
  = (if found (find ["div"] (Some "title") region) then ["title"] else [])
    ++ (if found (head (find_all ["div"] (Some "time-limit") region))
        then ["time_limit"] else [])
    ++ (if found (find ["div"] (Some "memory-limit") region)
        then ["memory_limit"] else [])
    ++ ["statement"; "samples"; "tags"].
Proof.
  unfold record_of.
  destruct (find ["div"] (Some "title") region);
  destruct (find_all ["div"] (Some "time-limit") region);
  destruct (find ["div"] (Some "memory-limit") region); reflexivity.
Qed.

(** X7: in the record a run returns, [title], [time_limit] and
    [memory_limit] are present exactly when the statement region has the
    matching element, and then hold the trimmed text of the first such
    element; [statement] and [samples] are always present. *)
Theorem optional_fields_follow_the_markers E id w data w' :
  scrape_problem E id w = (Return (Some data), w') →
  ∃ soup region,
    page_source E = Return soup
    ∧ find ["div"] (Some "problem-statement") soup = Some region
    ∧ dict_get "title" data
      = (fun t => Str (trimmed t)) <$> find ["div"] (Some "title") region
    ∧ dict_get "time_limit" data
      = (fun t => Str (trimmed t))
          <$> head (find_all ["div"] (Some "time-limit") region)
    ∧ dict_get "memory_limit" data
      = (fun t => Str (trimmed t)) <$> find ["div"] (Some "memory-limit") region
    ∧ dict_get "statement" data = Some (Str (extract_problem_statement region))
    ∧ dict_get "samples" data = Some (List_ (extract_samples region)).
Proof.
  intros Hrun.
  apply scrape_problem_Some_inv in Hrun
    as (soup & region & _ & Hpage & Hfind & -> & _).
  exists soup, region. split; [done|]. split; [done|]. apply record_of_fields.
Qed.

Lemma optional_fields_follow_the_markers_witness :
  ∃ data,
    (scrape_problem (serving sample_page) "1/A" fresh).1 = Return (Some data)
    ∧ dict_get "title" data = Some (Str "A. Theatre Square")
    ∧ dict_get "time_limit" data = Some (Str "1 second")
    ∧ dict_get "memory_limit" data = None.
Proof.
  destruct (scrape_problem (serving sample_page) "1/A" fresh) as [r w'] eqn:Hrun.
  assert (∃ data, r = Return (Some data)) as [data ->].
  { vm_compute in Hrun. injection Hrun as <- _. eauto. }
  exists data. split; [done|].
  destruct (optional_fields_follow_the_markers _ _ _ _ _ Hrun)
    as (soup & region & Hpage & Hfind & -> & -> & -> & _).
  injection Hpage as <-. vm_compute in Hfind. injection Hfind as <-.
  repeat split; reflexivity.
Defined.

(** X8: the keys of a returned record come in the order of extraction:
    the optional [title], [time_limit], [memory_limit] that were found, then
    always [statement], [samples], [tags].  The record is therefore never
    empty, and the driver's test [if result] holds for it. *)
Theorem record_keys_in_extraction_order E id w data w' :
  scrape_problem E id w = (Return (Some data), w') →
  ∃ soup region,
    page_source E = Return soup
    ∧ find ["div"] (Some "problem-statement") soup = Some region
    ∧ map fst data
      = (if found (find ["div"] (Some "title") region) then ["title"] else [])
        ++ (if found (head (find_all ["div"] (Some "time-limit") region))
            then ["time_limit"] else [])
        ++ (if found (find ["div"] (Some "memory-limit") region)
            then ["memory_limit"] else [])
        ++ ["statement"; "samples"; "tags"]
    ∧ keys_distinct data = true
    ∧ 3 ≤ length data ≤ 6
    ∧ result_truthy (Some data) = true.
Proof.
  intros Hrun.
  apply scrape_problem_Some_inv in Hrun
    as (soup & region & _ & Hpage & Hfind & -> & _).
  exists soup, region. split; [done|]. split; [done|].
  split; [apply record_of_keys|].
  unfold record_of.
  destruct (find ["div"] (Some "title") region);
  destruct (find_all ["div"] (Some "time-limit") region);
  destruct (find ["div"] (Some "memory-limit") region);
  repeat split; simpl; (reflexivity || lia).
Qed.

Lemma record_keys_in_extraction_order_witness :
  ∃ data,
    (scrape_problem (serving sample_page) "1/A" fresh).1 = Return (Some data)
    ∧ map fst data = ["title"; "time_limit"; "statement"; "samples"; "tags"].
Proof.
  destruct (scrape_problem (serving sample_page) "1/A" fresh) as [r w'] eqn:Hrun.
  assert (∃ data, r = Return (Some data)) as [data ->].
  { vm_compute in Hrun. injection Hrun as <- _. eauto. }
  exists data. split; [done|].
  destruct (record_keys_in_extraction_order _ _ _ _ _ Hrun)
    as (soup & region & Hpage & Hfind & -> & _).
  injection Hpage as <-. vm_compute in Hfind. injection Hfind as <-.
  reflexivity.
Defined.

(** ** Every run of [scrape_problem] *)

(** The [try] block either stops before the record is built, with the disk
    as it was, or goes on into [build_record]. *)
Lemma try_body_cases E id w :
  (∃ e w2,
     try_body E (target_url id) id w = (Raise e, w2)
     ∧ files w2 = files w ∧ raised_inside E id w e)
  ∨ (∃ current delay soup region,
       navigate E (target_url id) = None
       ∧ current_url E (url_reads w) = Return current
       ∧ marker E = MarkerAfter delay ∧ delay ≤ 20
       ∧ page_source E = Return soup
       ∧ find ["div"] (Some "problem-statement") soup = Some region
       ∧ try_body E (target_url id) id w
         = build_record E id soup region
             (World (stdout w ++ ["Current URL: " +:+ current;
                                  "Problem statement found, extracting content..."])
                (files w) (sessions w) (S (url_reads w)) (clock w + delay))).
Proof.
  unfold raised_inside.
  destruct (navigate E (target_url id)) as [e|] eqn:Hnav.
  { left. exists e, w. rewrite (try_body_navigation_failure _ _ _ _ _ Hnav). auto. }
  destruct (current_url E (url_reads w)) as [current|e] eqn:Hurl.
  2:{ left. eexists e, _. split; [|split; [|by auto]].
      - unfold try_body, bind, driver_get, driver_current_url.
        rewrite Hnav. cbn [ret]. rewrite Hurl. reflexivity.
      - reflexivity. }
  destruct (timed_out 20 (marker E)) eqn:Hout.
  { left. eexists _, _. split; [by eapply try_body_timeout|]. split; [done|].
    right. right. left. done. }
  destruct (marker E) as [delay| |e] eqn:Hwait; simpl in Hout; [|done|].
  2:{ left. eexists e, _. split; [|split; [|by auto 6]].
      - unfold try_body, bind, driver_get, driver_current_url, wait_until.
        rewrite Hnav. cbn [ret]. rewrite Hurl, Hwait. reflexivity.
      - reflexivity. }
  apply negb_false_iff, Nat.leb_le in Hout.
  destruct (page_source E) as [soup|e] eqn:Hpage.
  2:{ left. eexists e, _. split; [|split; [|by auto 6]].
      - unfold try_body, bind, driver_get, driver_current_url, wait_until,
          driver_page_source.
        rewrite Hnav. cbn [ret]. rewrite Hurl, Hwait, Hpage.
        apply Nat.leb_le in Hout. rewrite Hout. reflexivity.
      - reflexivity. }
  destruct (find ["div"] (Some "problem-statement") soup) as [region|] eqn:Hfind.
  2:{ left. eexists _, _. split; [by eapply try_body_no_region|]. split; [done|].
      do 5 right. left. eauto. }
  right. exists current, delay, soup, region.
  repeat (split; [done|]). by apply try_body_reaches_record.
Qed.

(** What a run leaves on disk, whatever its outcome: nothing new, or the text
    artifact (cut short if its write failed), or both artifacts (the JSON one
    cut short if its write failed). *)
Lemma scrape_problem_files E id w :
  files (scrape_problem E id w).2 = files w
  ∨ (∃ partial,
       files (scrape_problem E id w).2 = <[text_file_path id := partial]> (files w))
  ∨ ∃ soup region,
      page_source E = Return soup
      ∧ find ["div"] (Some "problem-statement") soup = Some region
      ∧ let fs := <[text_file_path id := extract_problem_statement region]>
                    (files w) in
        files (scrape_problem E id w).2 = fs
        ∨ (∃ partial,
             files (scrape_problem E id w).2 = <[output_file id := partial]> fs)
        ∨ files (scrape_problem E id w).2
          = <[output_file id := Json.dumps (Dict (record_of soup region))]> fs.
Proof.
  rewrite scrape_problem_run.
  destruct (chrome_start E); [by left|].
  assert (∀ r w2, files (match r with
                         | Return data => (Return (Some data), closed w2)
                         | Raise e =>
                             if is_Exception e
                             then (Return None, closed (handler E id e w2).2)
                             else (Raise e, closed w2)
                         end : result (option dict) * world).2 = files w2)
    as Hwrap.
  { intros [data|e] w2; [done|].
    destruct (is_Exception e); by rewrite ?handler_run. }
  destruct (try_body_cases E id (started id w))
    as [(e & w2 & -> & Hfiles & _)
       |(current & delay & soup & region & _ & _ & _ & _ & Hpage & Hfind & ->)].
  { left. by rewrite (Hwrap (Raise e)). }
  match goal with
  | |- context [build_record E id soup region ?w1] =>
      pose proof (build_record_outcome E id soup region w1) as Hout;
      destruct (build_record E id soup region w1) as [r w2]
  end.
  cbv zeta in Hout. cbn [fst snd files started] in Hout.
  rewrite (Hwrap r).
  destruct (fs_fault E (text_file_path id));
    [|injection Hout as _ ->; eauto..].
  right. right. exists soup, region. split; [done|]. split; [done|]. cbv zeta.
  destruct (fs_fault E (output_file id)); injection Hout as _ ->; eauto.
Qed.

Lemma scrape_problem_sessions E id w :
  sessions (scrape_problem E id w).2 = sessions w.
Proof.
  destruct (chrome_start E) eqn:Hstart.
  - by rewrite scrape_problem_run, Hstart.
  - by apply scrape_problem_keeps_sessions.
Qed.



Lemma scrape_problem_keeps_present E id w path :
  is_Some (files w !! path) → is_Some (files (scrape_problem E id w).2 !! path).
Proof.
  intros Hsome.
  destruct (scrape_problem_files E id w)
    as [->|[[partial ->]|(soup & region & _ & _ & [->|[[partial ->]| ->]])]];
    rewrite ?lookup_insert; repeat case_decide; eauto.
Qed.

(** X11: the JSON artifact is written only after the text artifact: a run
    that changes the file under the JSON name has found the statement region
    and left its statement text, in full, under the text name. *)
Theorem json_changes_only_after_text E id w :
  files (scrape_problem E id w).2 !! output_file id ≠ files w !! output_file id →
  ∃ soup region,
    page_source E = Return soup
    ∧ find ["div"] (Some "problem-statement") soup = Some region
    ∧ files (scrape_problem E id w).2 !! text_file_path id
      = Some (extract_problem_statement region).
Proof.
  intros Hchanged.
  pose proof (artifact_paths_differ id) as Hne.
  destruct (scrape_problem_files E id w)
    as [Heq|[[partial Heq]
            |(soup & region & Hpage & Hfind & [Heq|[[partial Heq]|Heq]])]];
    rewrite Heq in Hchanged |- *.
  - done.
  - by rewrite lookup_insert_ne in Hchanged.
  - by rewrite lookup_insert_ne in Hchanged.
  - exists soup, region. split; [done|]. split; [done|].
    rewrite lookup_insert_ne by done. apply lookup_insert_eq.
  - exists soup, region. split; [done|]. split; [done|].
    rewrite lookup_insert_ne by done. apply lookup_insert_eq.
Qed.

Lemma json_changes_only_after_text_witness :
  ∃ soup region,
    page_source (serving sample_page) = Return soup
    ∧ find ["div"] (Some "problem-statement") soup = Some region
    ∧ files (scrape_problem (serving sample_page) "1/A" fresh).2
        !! text_file_path "1/A"
      = Some (extract_problem_statement region).
Proof.
  apply json_changes_only_after_text. vm_compute. discriminate.
Defined.

Lemma try_body_raise_origin E id w e w2 :
  try_body E (target_url id) id w = (Raise e, w2) → raised_inside E id w e.
Proof.
  intros Hrun.
  destruct (try_body_cases E id w)
    as [(e' & w2' & Heq & _ & Horigin)
       |(current & delay & soup & region & _ & _ & _ & _ & _ & _ & Heq)].
  { rewrite Heq in Hrun. by injection Hrun as <- _. }
  rewrite Heq in Hrun.
  match type of Hrun with
  | build_record E id soup region ?w1 = _ =>
      pose proof (build_record_outcome E id soup region w1) as Hout
  end.
  cbv zeta in Hout. rewrite Hrun in Hout. cbn [fst snd] in Hout.
  unfold raised_inside.
  destruct (fs_fault E (text_file_path id)) eqn:Htxt;
    [|injection Hout as <- _; eauto 10..].
  destruct (fs_fault E (output_file id)) eqn:Hjson;
    [discriminate Hout|injection Hout as <- _; eauto 12..].
Qed.

Lemma scrape_problem_raise_origin E id w e :
  (scrape_problem E id w).1 = Raise e →
  chrome_start E = Some e
  ∨ (chrome_start E = None ∧ is_Exception e = false ∧ raised_inside E id w e).
Proof.
  rewrite scrape_problem_run.
  destruct (chrome_start E) as [e'|]; [intros [= ->]; by left|].
  destruct (try_body E (target_url id) id (started id w)) as [[d|e'] w2] eqn:Hbody;
    [done|].
  destruct (is_Exception e') eqn:He'; [by rewrite handler_run|].
  simpl. intros [= <-]. right. split; [done|]. split; [done|].
  exact (try_body_raise_origin E id (started id w) e' w2 Hbody).
Qed.

Lemma scrape_problem_returns E id w :
  chrome_start E = None → raises_only_Exceptions E →
  ∃ r, (scrape_problem E id w).1 = Return r.
Proof.
  intros Hstart (Hnav & Hurl & Hwait & Hpage & Hopen & Hwrite).
  destruct (scrape_problem E id w).1 as [r|e] eqn:Hres; [eauto|].
  exfalso.
  destruct (scrape_problem_raise_origin E id w e Hres) as [Hc|(_ & He & Hin)];
    [congruence|].
  assert (is_Exception e = true); [|congruence].
  destruct Hin
    as [H|[H|[[_ ->]|[H|[H|[(soup & _ & _ & ->)|[H|[[n H]|[H|[n H]]]]]]]]]];
    eauto.
Qed.



(** X14: after a run that returns a record, the text artifact holds exactly
    the statement stored in the record, the JSON artifact holds the dump of
    the record, and the disk differs from before in these two files only. *)
Theorem artifacts_agree_with_the_record E id w data w' :
  scrape_problem E id w = (Return (Some data), w') →
  ∃ statement_text,
    dict_get "statement" data = Some (Str statement_text)
    ∧ files w' !! text_file_path id = Some statement_text
    ∧ files w' !! output_file id = Some (Json.dumps (Dict data))
    ∧ files w'
      = <[output_file id := Json.dumps (Dict data)]>
          (<[text_file_path id := statement_text]> (files w)).
Proof.
  intros Hrun.
  apply scrape_problem_Some_inv in Hrun
    as (soup & region & _ & _ & _ & -> & ->).
  exists (extract_problem_statement region).
  split; [apply record_of_fields|]. split; [|split; [|done]].
  - rewrite lookup_insert_ne by (apply not_eq_sym, artifact_paths_differ).
    apply lookup_insert_eq.
  - apply lookup_insert_eq.
Qed.

Lemma artifacts_agree_with_the_record_witness :
  ∃ data statement_text,
    (scrape_problem (serving sample_page) "1/A" fresh).1 = Return (Some data)
    ∧ dict_get "statement" data = Some (Str statement_text)
    ∧ files (scrape_problem (serving sample_page) "1/A" fresh).2
        !! "scraped_data/problem_1_A.txt" = Some statement_text.
Proof.
  destruct (scrape_problem (serving sample_page) "1/A" fresh) as [r w'] eqn:Hrun.
  assert (∃ data, r = Return (Some data)) as [data ->].
  { vm_compute in Hrun. injection Hrun as <- _. eauto. }
  destruct (artifacts_agree_with_the_record _ _ _ _ _ Hrun)
    as (s & Hfield & Htxt & _).
  exists data, s. auto.
Defined.

(** ** The driver loop *)

Lemma summarize_run result w :
  ∃ lines,
    summarize result w
    = (Return tt,
       World (stdout w ++ lines) (files w) (sessions w) (url_reads w) (clock w)).
Proof.
  unfold summarize. destruct (result_truthy result).
  - eexists. unfold bind, print. cbn [stdout files sessions url_reads clock].
    rewrite <- !app_assoc. reflexivity.
  - eexists. reflexivity.
Qed.

(** One turn of the loop: announce, scrape, summarize, go on; an exception
    out of [scrape_problem] ends the loop. *)
Lemma main_loop_cons E k problem rest w :
  main_loop E k (problem :: rest) w
  = match scrape_problem (E k) problem (announced problem w) with
    | (Return result, w2) => main_loop E (S k) rest (summarize result w2).2
    | (Raise e, w2) => (Raise e, w2)
    end.
Proof.
  cbn [main_loop]. unfold bind at 1 2. unfold print at 1.
  fold (announced problem w).
  destruct (scrape_problem (E k) problem (announced problem w)) as [[r|e] w2];
    [|done].
  unfold bind. destruct (summarize_run r w2) as [lines ->]. done.
Qed.


Lemma main_loop_sessions E problems : ∀ k w,
  sessions (main_loop E k problems w).2 = sessions w.
Proof.
  induction problems as [|problem rest IH]; intros k w; [done|].
  rewrite main_loop_cons.
  pose proof (scrape_problem_sessions (E k) problem (announced problem w)) as Hs.
  destruct (scrape_problem (E k) problem (announced problem w)) as [[r|e] w2];
    simpl in Hs; [|done].
  rewrite IH. by destruct (summarize_run r w2) as [lines ->].
Qed.

Lemma main_loop_keeps_present E problems path : ∀ k w,
  is_Some (files w !! path) →
  is_Some (files (main_loop E k problems w).2 !! path).
Proof.
  induction problems as [|problem rest IH]; intros k w Hsome; [done|].
  rewrite main_loop_cons.
  pose proof (scrape_problem_keeps_present (E k) problem (announced problem w)
                path Hsome) as Hs.
  destruct (scrape_problem (E k) problem (announced problem w)) as [[r|e] w2];
    simpl in Hs; [|done].
  apply IH. by destruct (summarize_run r w2) as [lines ->].
Qed.

(** X10: no call of [scrape_problem] and no run of the driver loop removes a
    file: what was on disk before is still there afterwards, whatever the
    outcome. *)
Theorem files_are_never_removed path w :
  is_Some (files w !! path) →
  (∀ E id, is_Some (files (scrape_problem E id w).2 !! path))
  ∧ (∀ E k problems, is_Some (files (main_loop E k problems w).2 !! path)).
Proof.
  intros Hsome. split.
  - intros E id. by apply scrape_problem_keeps_present.
  - intros E k problems. by apply main_loop_keeps_present.
Qed.

Lemma files_are_never_removed_witness :
  is_Some (files (scrape_problem never_ready "1/A"
                    (World [] {["scraped_data/problem_1_A.txt" := "old"]} 0 0 0)).2
             !! "scraped_data/problem_1_A.txt").
Proof.
  assert (is_Some (files (World [] {["scraped_data/problem_1_A.txt" := "old"]}
                            0 0 0) !! "scraped_data/problem_1_A.txt")) as Hold.
  { exists "old". reflexivity. }
  destruct (files_are_never_removed _ _ Hold) as [Hcall _].
  exact (Hcall never_ready "1/A").
Defined.

Lemma extractable_run E id w :
  extractable E id →
  ∃ soup region,
    page_source E = Return soup
    ∧ find ["div"] (Some "problem-statement") soup = Some region
    ∧ (scrape_problem E id w).1 = Return (Some (record_of soup region))
    ∧ files (scrape_problem E id w).2
      = <[output_file id := Json.dumps (Dict (record_of soup region))]>
          (<[text_file_path id := extract_problem_statement region]> (files w)).
Proof.
  intros (Hstart & Hnav & Hurl & (delay & Hwait & Hle)
          & (soup & region & Hpage & Hfind) & Htxt & Hjson).
  destruct (Hurl (url_reads w)) as [current Hcur].
  exists soup, region. split; [done|]. split; [done|].
  rewrite scrape_problem_run, Hstart.
  rewrite (try_body_reaches_record (E) (target_url id) id (started id w)
             current delay soup region Hnav Hcur Hwait Hle Hpage Hfind).
  match goal with
  | |- context [build_record E id soup region ?w1] =>
      pose proof (build_record_outcome E id soup region w1) as Hout;
      destruct (build_record E id soup region w1) as [r w2]
  end.
  cbv zeta in Hout. rewrite Htxt, Hjson in Hout. cbn [fst snd] in Hout.
  injection Hout as -> Hfiles. cbn [fst snd closed files]. by rewrite Hfiles.
Qed.

Lemma extractable_artifacts E id w :
  extractable E id →
  is_Some (files (scrape_problem E id w).2 !! text_file_path id)
  ∧ is_Some (files (scrape_problem E id w).2 !! output_file id).
Proof.
  intros Hex.
  destruct (extractable_run E id w Hex) as (soup & region & _ & _ & _ & ->).
  split.
  - rewrite lookup_insert_ne by (apply not_eq_sym, artifact_paths_differ).
    rewrite lookup_insert_eq. eauto.
  - rewrite lookup_insert_eq. eauto.
Qed.



Lemma record_of_summary soup region w :
  summarize (Some (record_of soup region)) w
  = (Return tt,
     World (stdout w ++ summary_of soup region) (files w) (sessions w)
       (url_reads w) (clock w)).
Proof.
  unfold summarize, summary_of, get_or, samples_count.
  destruct (record_of_fields soup region) as (Ht & Hl & Hm & _ & Hs).
  assert (result_truthy (Some (record_of soup region)) = true) as ->.
  { unfold record_of.
    destruct (find ["div"] (Some "title") region);
    destruct (find_all ["div"] (Some "time-limit") region);
    destruct (find ["div"] (Some "memory-limit") region); reflexivity. }
  cbn [default from_option id]. rewrite Ht, Hl, Hm, Hs.
  unfold bind, print. cbn [stdout files sessions url_reads clock len].
  rewrite <- !app_assoc.
  destruct (find ["div"] (Some "title") region);
  destruct (find_all ["div"] (Some "time-limit") region);
  destruct (find ["div"] (Some "memory-limit") region); reflexivity.
Qed.

(** X17: what the driver prints about a result.  For [None] it is the
    failure notice.  For a returned record it is the success notice, then the
    title, the time limit and the memory limit, each replaced by [Not found]
    when the statement region has no such element, then the number of sample
    pairs that were kept. *)
Theorem summary_follows_the_record :
  (∀ w, summarize None w
        = (Return tt,
           World (stdout w ++ [PyStr.nl +:+ "Failed to scrape problem data"])
             (files w) (sessions w) (url_reads w) (clock w)))
  ∧ (∀ E id w data w',
       scrape_problem E id w = (Return (Some data), w') →
       ∃ soup region,
         page_source E = Return soup
         ∧ find ["div"] (Some "problem-statement") soup = Some region
         ∧ ∀ w2, summarize (Some data) w2
                 = (Return tt,
                    World (stdout w2 ++ summary_of soup region) (files w2)
                      (sessions w2) (url_reads w2) (clock w2))).
Proof.
  split; [done|].
  intros E id w data w' Hrun.
  apply scrape_problem_Some_inv in Hrun
    as (soup & region & _ & Hpage & Hfind & -> & _).
  exists soup, region. split; [done|]. split; [done|].
  intros w2. apply record_of_summary.
Qed.

Lemma summary_follows_the_record_witness :
  ∃ data,
    (scrape_problem (serving sample_page) "1/A" fresh).1 = Return (Some data)
    ∧ stdout (summarize (Some data) fresh).2
      = [PyStr.nl +:+ "Successfully scraped problem data:";
         "Title: A. Theatre Square"; "Time Limit: 1 second";
         "Memory Limit: Not found"; "Number of sample tests: 1"].
Proof.
  destruct (scrape_problem (serving sample_page) "1/A" fresh) as [r w'] eqn:Hrun.
  assert (∃ data, r = Return (Some data)) as [data ->].
  { vm_compute in Hrun. injection Hrun as <- _. eauto. }
  exists data. split; [done|].
  destruct (proj2 summary_follows_the_record _ _ _ _ _ Hrun)
    as (soup & region & Hpage & Hfind & ->).
  injection Hpage as <-. vm_compute in Hfind. injection Hfind as <-.
  reflexivity.
Defined.

(** X19: a run consults the surroundings at its own address and its two
    paths only: the address is the base address, [/problemset/problem/] and
    the identifier; how the browser would answer for any other address, and
    how the disk would behave for any other path, has no influence on the
    run. *)
Theorem runs_consult_only_their_address_and_paths E id w navigate' fs_fault' :
  navigate' (target_url id) = navigate E (target_url id) →
  fs_fault' (text_file_path id) = fs_fault E (text_file_path id) →
  fs_fault' (output_file id) = fs_fault E (output_file id) →
  target_url id = "https://codeforces.com/problemset/problem/" +:+ id
  ∧ scrape_problem
      (Env (chrome_start E) navigate' (current_url E) (marker E)
         (page_source E) fs_fault') id w
    = scrape_problem E id w.
Proof.
  intros Hnav Htxt Hjson. split; [reflexivity|].
  destruct E as [start nav cur mark page faults].
  cbn [navigate fs_fault] in Hnav, Htxt, Hjson.
  rewrite !scrape_problem_run. cbn [chrome_start].
  destruct start as [e|]; [done|].
  assert (∀ w1, try_body (Env None navigate' cur mark page fs_fault')
                  (target_url id) id w1
                = try_body (Env None nav cur mark page faults)
                    (target_url id) id w1) as Hbody.
  { intros w1.
    unfold try_body, driver_get, driver_current_url, wait_until,
      driver_page_source, build_record, write_file.
    cbn [navigate current_url marker page_source fs_fault].
    by rewrite Hnav, Htxt, Hjson. }
  rewrite Hbody.
  destruct (try_body _ _ id (started id w)) as [[data|e] w2]; [done|].
  destruct (is_Exception e); [|done]. by rewrite !handler_run.
Qed.

Lemma runs_consult_only_their_address_and_paths_witness :
  scrape_problem
    (Env None
       (fun url => if String.eqb url "https://codeforces.com/problemset/problem/1/A"
                   then None else Some (WebDriverException "unreachable"))
       (current_url (serving sample_page)) (MarkerAfter 2) (Return sample_page)
       (fun path => if String.eqb path "scraped_data/problem_1_A.txt" then NoFault
                    else if String.eqb path "scraped_data/problem_1_A.json"
                         then NoFault
                         else OpenFails (OSError "read-only")))
    "1/A" fresh
  = scrape_problem (serving sample_page) "1/A" fresh.
Proof.
  apply (runs_consult_only_their_address_and_paths (serving sample_page) "1/A"
           fresh); reflexivity.
Defined.

(** * The code over a console that may refuse a line *)

(** With the console that accepts every line this is [scrape_problem]. *)
Lemma scrape_problem_on_quiet E id w :
  scrape_problem_on quiet E id w = scrape_problem E id w.
Proof. reflexivity. Qed.


Lemma dict_get_set_eq k v d : dict_get k (dict_set k v d) = Some v.
Proof.
  induction d as [|[k' v'] d IH]; simpl.
  - by rewrite String.eqb_refl.
  - destruct (String.eqb k' k) eqn:Hk; simpl; [by rewrite String.eqb_refl|].
    by rewrite Hk.
Qed.

(** Takes the next print of the goal apart: refused, or written. *)
Ltac next_line C :=
  match goal with
  | |- context [match C ?l with _ => _ end] => destruct (C l) eqn:?
  end.

(** What [build_record_with] returns and leaves on disk, by the first print
    that is refused or the first write that fails. *)
Lemma build_record_on_outcome C E id soup region w :
  let statement_text := extract_problem_statement region in
  let data := record_of soup region in
  let run := build_record_with (print_on C) E id soup region w in
  (run.1, files run.2)
  = match refusal C (found_lines region) with
    | Some e => (Raise e, files w)
    | None =>
        match fs_fault E (text_file_path id) with
        | OpenFails e => (Raise e, files w)
        | WriteFails e n =>
            (Raise e,
             <[text_file_path id := String.substring 0 n statement_text]> (files w))
        | NoFault =>
            let fs := <[text_file_path id := statement_text]> (files w) in
            match C (saved_line id) with
            | Some e => (Raise e, fs)
            | None =>
                match C (samples_line region) with
                | Some e => (Raise e, fs)
                | None =>
                    match fs_fault E (output_file id) with
                    | OpenFails e => (Raise e, fs)
                    | WriteFails e n =>
                        (Raise e,
                         <[output_file id
                           := String.substring 0 n (Json.dumps (Dict data))]> fs)
                    | NoFault =>
                        let fs2 := <[output_file id := Json.dumps (Dict data)]> fs in
                        match C (data_saved_line id) with
                        | Some e => (Raise e, fs2)
                        | None => (Return data, fs2)
                        end
                    end
                end
            end
        end
    end.
Proof.
  intros statement_text data run. subst statement_text data run.
  unfold build_record_with, found_lines, record_of, saved_line, samples_line,
    data_saved_line, trimmed.
  destruct (find ["div"] (Some "title") region) as [title_div|];
  destruct (find_all ["div"] (Some "time-limit") region) as [|limits_0 ?];
  destruct (find ["div"] (Some "memory-limit") region) as [memory_limit|];
  unfold bind, print_on, print, write_file, ret, raise;
  repeat (first
    [ reflexivity
    | progress (rewrite ?dict_get_set_eq;
                cbn [show app refusal stdout files sessions url_reads clock
                     fst snd])
    | next_line C
    | match goal with
      | |- context [fs_fault E ?p] => destruct (fs_fault E p)
      end ]).
Qed.

Lemma refusal_cons_None C line rest :
  refusal C (line :: rest) = None ↔ C line = None ∧ refusal C rest = None.
Proof. simpl. destruct (C line); split; [done|intros [? ?]|done|tauto]; done. Qed.

(** The handler over a console: it leaves the disk alone, and returns [None]
    when its first line is accepted. *)
Lemma handler_on_run C E id e w :
  files (handler_with (print_on C) E id e w).2 = files w
  ∧ (C (error_line id e) = None →
     (handler_with (print_on C) E id e w).1 = Return None)
  ∧ (∀ data, (handler_with (print_on C) E id e w).1 ≠ Return (Some data)).
Proof.
  unfold handler_with, error_line, bind, print_on, try_pass, driver_current_url,
    print, ret, raise.
  destruct (C ("Error scraping problem " +:+ id +:+ ": " +:+ str_exn e));
    [done|].
  cbn [stdout files sessions url_reads clock].
  destruct (current_url E (url_reads w)) as [current|e']; [|done].
  destruct (C ("Failed URL: " +:+ current)); done.
Qed.

(** The shape of every run over a console. *)
Lemma scrape_problem_on_run C E id w :
  scrape_problem_on C E id w
  = match C (accessing_line id) with
    | Some e => (Raise e, w)
    | None =>
        match chrome_start E with
        | Some e =>
            (Raise e,
             World (stdout w ++ [accessing_line id])
               (files w) (sessions w) (url_reads w) (clock w))
        | None =>
            match try_body_with (print_on C) E (target_url id) id (started id w)
            with
            | (Return data, w2) => (Return (Some data), closed w2)
            | (Raise e, w2) =>
                if is_Exception e
                then ((handler_with (print_on C) E id e w2).1,
                      closed (handler_with (print_on C) E id e w2).2)
                else (Raise e, closed w2)
            end
        end
    end.
Proof.
  unfold scrape_problem_on, scrape_problem_with, accessing_line.
  fold (target_url id).
  unfold bind at 1 2. unfold print_on at 1.
  destruct (C ("Accessing URL: " +:+ target_url id)); [done|].
  unfold print at 1. unfold setup_driver.
  destruct (chrome_start E) as [e|]; [done|].
  unfold try_finally, try_except.
  cbn [stdout files sessions url_reads clock].
  change (World (stdout w ++ ["Accessing URL: " +:+ target_url id])
            (files w) (S (sessions w)) (url_reads w) (clock w))
    with (started id w).
  unfold bind at 1.
  destruct (try_body_with (print_on C) E (target_url id) id (started id w))
    as [[data|e] w2].
  - done.
  - destruct (is_Exception e); [|done].
    by destruct (handler_with (print_on C) E id e w2) as [[r|e'] w3].
Qed.

(** The [try] block up to the statement region, over a console. *)
Lemma try_body_on_reaches_record C E url id w current delay soup region :
  navigate E url = None →
  current_url E (url_reads w) = Return current →
  C ("Current URL: " +:+ current) = None →
  marker E = MarkerAfter delay → delay ≤ 20 →
  C "Problem statement found, extracting content..." = None →
  page_source E = Return soup →
  find ["div"] (Some "problem-statement") soup = Some region →
  try_body_with (print_on C) E url id w
  = build_record_with (print_on C) E id soup region
      (World (stdout w ++ ["Current URL: " +:+ current;
                           "Problem statement found, extracting content..."])
         (files w) (sessions w) (S (url_reads w)) (clock w + delay)).
Proof.
  intros Hnav Hurl Hcur Hwait Hle Hfound Hpage Hfind.
  unfold try_body_with, bind, driver_get, driver_current_url, wait_until,
    driver_page_source, print_on.
  rewrite Hnav. cbn [ret]. rewrite Hurl, Hcur, Hwait, Hfound, Hpage.
  apply Nat.leb_le in Hle. rewrite Hle.
  cbn [print sleep ret stdout files sessions url_reads clock].
  rewrite Hfind. by rewrite <- app_assoc.
Qed.


(** C10, as the code has it: the two writes are not atomic.  Once the text
    artifact is written, an exception raised before the JSON artifact is
    written (by the print of line 87, by the print of line 107, or by opening
    the JSON file) leaves the text artifact on disk with the whole statement
    and the JSON artifact as it was before the call.  [scrape_problem] then
    returns [None] when the exception derives from [Exception] and the
    handler can print its error line; an exception that does not derive from
    [Exception] reaches the caller instead. *)
Theorem text_artifact_survives_later_failure
    C E id w current delay soup region e :
  chrome_start E = None →
  navigate E (target_url id) = None →
  current_url E (url_reads w) = Return current →
  marker E = MarkerAfter delay → delay ≤ 20 →
  page_source E = Return soup →
  find ["div"] (Some "problem-statement") soup = Some region →
  refusal C (lines_before_text id current region) = None →
  fs_fault E (text_file_path id) = NoFault →
  raised_between C E id region e →
  files (scrape_problem_on C E id w).2 !! text_file_path id
  = Some (extract_problem_statement region)
  ∧ files (scrape_problem_on C E id w).2 !! output_file id
    = files w !! output_file id
  ∧ (is_Exception e = true → C (error_line id e) = None →
     (scrape_problem_on C E id w).1 = Return None)
  ∧ (is_Exception e = false → (scrape_problem_on C E id w).1 = Raise e).
Proof.
  intros Hstart Hnav Hurl Hwait Hle Hpage Hfind Hlines Htxt Hbetween.
  unfold lines_before_text in Hlines. cbn [app] in Hlines.
  apply refusal_cons_None in Hlines as [Hacc Hlines].
  apply refusal_cons_None in Hlines as [Hcur Hlines].
  apply refusal_cons_None in Hlines as [Hfound Hlines].
  rewrite scrape_problem_on_run, Hacc, Hstart.
  rewrite (try_body_on_reaches_record C E (target_url id) id (started id w)
             current delay soup region Hnav Hurl Hcur Hwait Hle Hfound Hpage Hfind).
  match goal with
  | |- context [build_record_with (print_on C) E id soup region ?w1] =>
      pose proof (build_record_on_outcome C E id soup region w1) as Hout;
      destruct (build_record_with (print_on C) E id soup region w1) as [r w2]
  end.
  cbv zeta in Hout. rewrite Hlines, Htxt in Hout.
  cbn [fst snd files started] in Hout.
  assert (r = Raise e
          ∧ files w2
            = <[text_file_path id := extract_problem_statement region]> (files w))
    as [-> Hfiles].
  { destruct Hbetween as [H1|[[H1 H2]|(H1 & H2 & H3)]];
      rewrite ?H1, ?H2, ?H3 in Hout; by injection Hout as -> ->. }
  destruct (handler_on_run C E id e w2) as (Hhfiles & Hhres & _).
  assert (∀ (r' : result (option dict)) w3, files w3 = files w2 →
            files (r', closed w3).2 !! text_file_path id
            = Some (extract_problem_statement region)
            ∧ files (r', closed w3).2 !! output_file id
              = files w !! output_file id) as Hdisk.
  { intros r' w3 H3. cbn [snd closed files]. rewrite H3, Hfiles. split.
    - apply lookup_insert_eq.
    - rewrite lookup_insert_ne; [done|]. apply artifact_paths_differ. }
  destruct (is_Exception e).
  - destruct (Hdisk (handler_with (print_on C) E id e w2).1
                (handler_with (print_on C) E id e w2).2 Hhfiles) as [H1 H2].
    split; [exact H1|]. split; [exact H2|]. split; [|done].
    intros _ Herr. by apply Hhres.
  - destruct (Hdisk (Raise e) w2 eq_refl) as [H1 H2].
    split; [exact H1|]. split; [exact H2|]. split; [done|]. done.
Qed.

(** An instance: the console fails on the line about the samples. *)
Lemma text_artifact_survives_later_failure_witness :
  (scrape_problem_on no_samples_line (serving sample_page) "1/A" fresh).1
  = Return None
  ∧ files (scrape_problem_on no_samples_line (serving sample_page) "1/A" fresh).2
      !! "scraped_data/problem_1_A.txt"
    = Some ("A. Theatre Square1 second" +:+ PyStr.nl +:+ "A. Theatre Square"
            +:+ PyStr.nl +:+ "1 second" +:+ PyStr.nl +:+ "Pave the square."
            +:+ PyStr.nl +:+ "6 6 44" +:+ PyStr.nl +:+ "6 6 4" +:+ PyStr.nl
            +:+ "4")
  ∧ files (scrape_problem_on no_samples_line (serving sample_page) "1/A" fresh).2
      !! "scraped_data/problem_1_A.json" = None.
Proof.
  destruct (text_artifact_survives_later_failure no_samples_line
              (serving sample_page) "1/A" fresh
              "https://codeforces.com/problemset/problem/1/A" 2 sample_page
              (region_of
                 [Tag "div" ["header"]
                    [Tag "div" ["title"] [NavigableString "A. Theatre Square"];
                     Tag "div" ["time-limit"] [NavigableString "1 second"]];
                  paragraph_of "Pave the square.";
                  Tag "div" ["sample-test"]
                    [Tag "div" ["input"] [Tag "pre" [] [NavigableString "6 6 4"]];
                     Tag "div" ["output"] [Tag "pre" [] [NavigableString "4"]]]])
              (OSError "[Errno 5] Input/output error"))
    as (Htxt & Hjson & Hres & _);
    [reflexivity..|simpl; lia|reflexivity|reflexivity|reflexivity|reflexivity| |].
  { right. left. split; reflexivity. }
  split; [by apply Hres|]. split; [exact Htxt|exact Hjson].
Defined.

(** C10 as stated fails for an exception that does not derive from
    [Exception]: when opening the JSON artifact is interrupted from the
    keyboard, the text artifact is on disk and the JSON artifact is not, but
    [scrape_problem] does not return [None]: the interrupt reaches the
    caller. *)
Lemma interrupt_before_json_reaches_the_caller :
  (scrape_problem json_interrupted "1/A" fresh).1 = Raise KeyboardInterrupt
  ∧ (scrape_problem json_interrupted "1/A" fresh).1 ≠ Return None
  ∧ files (scrape_problem json_interrupted "1/A" fresh).2
      !! "scraped_data/problem_1_A.txt"
    = Some ("A. Theatre Square1 second" +:+ PyStr.nl +:+ "A. Theatre Square"
            +:+ PyStr.nl +:+ "1 second" +:+ PyStr.nl +:+ "Pave the square."
            +:+ PyStr.nl +:+ "6 6 44" +:+ PyStr.nl +:+ "6 6 4" +:+ PyStr.nl
            +:+ "4")
  ∧ files (scrape_problem json_interrupted "1/A" fresh).2
      !! "scraped_data/problem_1_A.json" = None.
Proof.
  split; [vm_compute; reflexivity|].
  split; [vm_compute; discriminate|].
  split; vm_compute; reflexivity.
Qed.



(** ** The driver on a console *)

Lemma bind_ext {A B : Type} (m1 m2 : M A) (k1 k2 : A → M B) w :
  m1 w = m2 w → (∀ a w', k1 a w' = k2 a w') → bind m1 k1 w = bind m2 k2 w.
Proof.
  intros Hm Hk. unfold bind. rewrite Hm.
  destruct (m2 w) as [[a|e] w']; [apply Hk|done].
Qed.

Lemma try_except_ext {A : Type} (m1 m2 : M A) (h1 h2 : exn → M A) w :
  m1 w = m2 w → (∀ e w', h1 e w' = h2 e w') →
  try_except m1 h1 w = try_except m2 h2 w.
Proof.
  intros Hm Hh. unfold try_except. rewrite Hm.
  destruct (m2 w) as [[a|e] w']; [done|]. by rewrite Hh.
Qed.

Lemma try_pass_ext (m1 m2 : M unit) w :
  m1 w = m2 w → try_pass m1 w = try_pass m2 w.
Proof. intros Hm. unfold try_pass. by rewrite Hm. Qed.

Lemma try_finally_ext {A : Type} (m1 m2 : M A) (f : M unit) w :
  m1 w = m2 w → try_finally m1 f w = try_finally m2 f w.
Proof. intros Hm. unfold try_finally. by rewrite Hm. Qed.

Lemma print_on_accepting C line w :
  accepting C → print_on C line w = print line w.
Proof. intros HC. unfold print_on. by rewrite HC. Qed.

Ltac same_run HC :=
  repeat first
    [ reflexivity
    | apply (print_on_accepting _ _ _ HC)
    | apply bind_ext; [|intros ? ?]
    | apply try_except_ext; [|intros ? ?]
    | apply try_pass_ext
    | apply try_finally_ext
    | match goal with
      | |- (match ?x with _ => _ end) _ = _ => destruct x
      end ].

(** On a console that accepts every line, the code runs as in the first
    reading. *)
Lemma scrape_problem_on_accepting C E id w :
  accepting C → scrape_problem_on C E id w = scrape_problem E id w.
Proof.
  intros HC.
  unfold scrape_problem_on, scrape_problem_with, scrape_problem,
    try_body_with, try_body, handler_with, handler,
    build_record_with, build_record.
  cbv zeta. same_run HC.
Qed.

Lemma summarize_on_accepting C result w :
  accepting C → summarize_on C result w = summarize result w.
Proof.
  intros HC. unfold summarize_on, summarize. cbv zeta.
  destruct (result_truthy result); same_run HC.
Qed.

Lemma main_loop_on_accepting C E problems : ∀ k w,
  accepting C → main_loop_on C E k problems w = main_loop E k problems w.
Proof.
  induction problems as [|problem rest IH]; intros k w HC; [done|].
  cbn [main_loop_on main_loop].
  apply bind_ext; [by apply print_on_accepting|]. intros _ w1.
  apply bind_ext; [by apply scrape_problem_on_accepting|]. intros r w2.
  apply bind_ext; [by apply summarize_on_accepting|]. intros _ w3.
  by apply IH.
Qed.

Lemma main_loop_returns E problems : ∀ k w,
  (∀ j, j < length problems →
        chrome_start (E (k + j)) = None ∧ raises_only_Exceptions (E (k + j))) →
  (main_loop E k problems w).1 = Return tt.
Proof.
  induction problems as [|problem rest IH]; intros k w Hnice; [done|].
  rewrite main_loop_cons.
  destruct (Hnice 0) as [Hstart Honly]; [simpl; lia|].
  rewrite Nat.add_0_r in Hstart, Honly.
  destruct (scrape_problem_returns (E k) problem (announced problem w)
              Hstart Honly) as [r Hr].
  destruct (scrape_problem (E k) problem (announced problem w)) as [r' w2].
  simpl in Hr. subst r'.
  apply IH. intros j Hj. replace (S k + j) with (k + S j) by lia.
  apply Hnice. simpl. lia.
Qed.

Lemma main_loop_artifacts E problems : ∀ k w,
  (∀ j, j < length problems →
        chrome_start (E (k + j)) = None ∧ raises_only_Exceptions (E (k + j))) →
  ∀ j problem,
    problems !! j = Some problem → extractable (E (k + j)) problem →
    is_Some (files (main_loop E k problems w).2 !! text_file_path problem)
    ∧ is_Some (files (main_loop E k problems w).2 !! output_file problem).
Proof.
  induction problems as [|problem rest IH]; intros k w Hnice j p Hj Hex; [done|].
  rewrite main_loop_cons.
  destruct (Hnice 0) as [Hstart Honly]; [simpl; lia|].
  rewrite Nat.add_0_r in Hstart, Honly.
  destruct (scrape_problem_returns (E k) problem (announced problem w)
              Hstart Honly) as [r Hr].
  destruct j as [|j].
  - injection Hj as ->. rewrite Nat.add_0_r in Hex.
    destruct (extractable_artifacts (E k) p (announced p w) Hex)
      as (Htxt & Hjson).
    destruct (scrape_problem (E k) p (announced p w)) as [r' w2].
    simpl in Hr, Htxt, Hjson. subst r'.
    destruct (summarize_run r w2) as [lines ->].
    split; by apply main_loop_keeps_present.
  - destruct (scrape_problem (E k) problem (announced problem w)) as [r' w2].
    simpl in Hr. subst r'.
    replace (k + S j) with (S k + j) in Hex by lia.
    apply (IH (S k) _) with (j := j); [|done..].
    intros i Hi. replace (S k + i) with (k + S i) by lia.
    apply Hnice. simpl. lia.
Qed.

(** X15: one identifier that fails does not stop the driver.  On a console
    that accepts every line, when in every call Chrome starts and the
    surroundings raise only exceptions that derive from [Exception], the loop
    returns after visiting every identifier, no session is left open, and
    both artifacts exist for every identifier whose page could be scraped,
    wherever it stands in the list and whatever happened to the others. *)
Theorem driver_visits_every_identifier C E problems k w :
  accepting C →
  (∀ j, j < length problems →
        chrome_start (E (k + j)) = None ∧ raises_only_Exceptions (E (k + j))) →
  (main_loop_on C E k problems w).1 = Return tt
  ∧ sessions (main_loop_on C E k problems w).2 = sessions w
  ∧ ∀ j problem,
      problems !! j = Some problem → extractable (E (k + j)) problem →
      is_Some (files (main_loop_on C E k problems w).2 !! text_file_path problem)
      ∧ is_Some (files (main_loop_on C E k problems w).2 !! output_file problem).
Proof.
  intros HC Hnice. rewrite main_loop_on_accepting by done.
  split; [by apply main_loop_returns|].
  split; [apply main_loop_sessions|].
  by apply main_loop_artifacts.
Qed.

(** An instance: the first page has no statement region, the second can be
    scraped. *)
Lemma driver_visits_every_identifier_witness :
  let E := fun k => match k with
                    | 0 => serving page_without_region
                    | _ => serving sample_page
                    end in
  (main_loop_on quiet E 0 ["1/A"; "1/B"] fresh).1 = Return tt
  ∧ is_Some (files (main_loop_on quiet E 0 ["1/A"; "1/B"] fresh).2
               !! "scraped_data/problem_1_B.txt")
  ∧ is_Some (files (main_loop_on quiet E 0 ["1/A"; "1/B"] fresh).2
               !! "scraped_data/problem_1_B.json").
Proof.
  intros E.
  assert (∀ page, raises_only_Exceptions (serving page)) as Honly.
  { intros page. repeat split; intros; discriminate. }
  destruct (driver_visits_every_identifier quiet E ["1/A"; "1/B"] 0 fresh)
    as (Hres & _ & Hfiles).
  { intros line. reflexivity. }
  { intros [|[|j]] Hj; simpl in Hj; [split; [reflexivity|apply Honly]..|lia]. }
  split; [exact Hres|].
  apply (Hfiles 1 "1/B" eq_refl).
  split; [reflexivity|]. split; [reflexivity|].
  split; [intros n; eexists; reflexivity|].
  split; [exists 2; split; [reflexivity|lia]|].
  split; [|split; reflexivity].
  eexists _, _. split; reflexivity.
Defined.

Lemma main_loop_extractable E problems : ∀ k w,
  (∀ j problem, problems !! j = Some problem → extractable (E (k + j)) problem) →
  (main_loop E k problems w).1 = Return tt
  ∧ dom (files (main_loop E k problems w).2)
    = dom (files w)
      ∪ list_to_set
          (problems ≫= fun problem =>
                          [text_file_path problem; output_file problem]).
Proof.
  induction problems as [|problem rest IH]; intros k w Hall.
  { split; [done|]. simpl. by rewrite (right_id_L ∅ (∪)). }
  rewrite main_loop_cons.
  assert (extractable (E k) problem) as Hex.
  { rewrite <- (Nat.add_0_r k). by apply (Hall 0). }
  destruct (extractable_run (E k) problem (announced problem w) Hex)
    as (soup & region & _ & _ & Hres & Hfiles).
  destruct (scrape_problem (E k) problem (announced problem w)) as [r w2].
  simpl in Hres, Hfiles. subst r.
  assert (∀ j p, rest !! j = Some p → extractable (E (S k + j)) p) as Hrest.
  { intros j p Hj. replace (S k + j) with (k + S j) by lia. by apply Hall. }
  destruct (IH (S k) (summarize (Some (record_of soup region)) w2).2 Hrest)
    as [-> ->].
  split; [done|].
  destruct (summarize_run (Some (record_of soup region)) w2) as [lines ->].
  cbn [snd files]. rewrite Hfiles, !dom_insert_L. cbn [announced files].
  change ((problem :: rest) ≫= ?f) with (f problem ++ (rest ≫= f)).
  cbn [app]. rewrite !list_to_set_cons.
  generalize (list_to_set (rest ≫= fun problem : string =>
                [text_file_path problem; output_file problem]) : gset string).
  generalize (dom (files w)) (text_file_path problem) (output_file problem).
  clear. intros A txt json B.
  apply set_eq. intros x. rewrite !elem_of_union. tauto.
Qed.

(** X18: on a console that accepts every line, when every page can be
    scraped, the driver returns and the files on disk afterwards are exactly
    those that were there before together with the text artifact and the
    JSON artifact of every identifier in the list. *)
Theorem driver_creates_exactly_the_artifacts C E problems k w :
  accepting C →
  (∀ j problem, problems !! j = Some problem → extractable (E (k + j)) problem) →
  (main_loop_on C E k problems w).1 = Return tt
  ∧ dom (files (main_loop_on C E k problems w).2)
    = dom (files w)
      ∪ list_to_set
          (problems ≫= fun problem =>
                          [text_file_path problem; output_file problem]).
Proof.
  intros HC Hall. rewrite main_loop_on_accepting by done.
  by apply main_loop_extractable.
Qed.

(** An instance: the driver of the source, all six pages served. *)
Lemma driver_creates_exactly_the_artifacts_witness :
  (main_on quiet (fun _ => serving sample_page) fresh).1 = Return tt
  ∧ dom (files (main_on quiet (fun _ => serving sample_page) fresh).2)
    = list_to_set
        ["scraped_data/problem_1_A.txt"; "scraped_data/problem_1_A.json";
         "scraped_data/problem_1_B.txt"; "scraped_data/problem_1_B.json";
         "scraped_data/problem_1_C.txt"; "scraped_data/problem_1_C.json";
         "scraped_data/problem_2_A.txt"; "scraped_data/problem_2_A.json";
         "scraped_data/problem_2_B.txt"; "scraped_data/problem_2_B.json";
         "scraped_data/problem_2_C.txt"; "scraped_data/problem_2_C.json"].
Proof.
  destruct (driver_creates_exactly_the_artifacts quiet
              (fun _ => serving sample_page) problem_array 0 fresh)
    as [Hres Hdom].
  { intros line. reflexivity. }
  { intros j p _.
    split; [reflexivity|]. split; [reflexivity|].
    split; [intros n; eexists; reflexivity|].
    split; [exists 2; split; [reflexivity|lia]|].
    split; [|split; reflexivity].
    eexists _, _. split; reflexivity. }
  split; [exact Hres|].
  unfold main_on. rewrite Hdom. cbn [fresh files]. rewrite dom_empty_L.
  rewrite (left_id_L ∅ (∪)). reflexivity.
Defined.
